(** * Guts Python SDK: error dispatch, transport and resource facades

    A shallow embedding of [guts/exceptions.py], [guts/models.py] and
    [guts/client.py].  Python values that come out of [response.json()] are
    kept as a JSON tree; a raising computation is a value of [res]; the
    facade methods run in a small state monad whose state is the list of
    HTTP requests sent so far.  The two libraries the SDK sits on, httpx and
    pydantic, are interfaces ([Httpx], [Pydantic]) with one method each. *)

From Stdlib Require Import ZArith String List Ascii Bool Lia DecimalString.
From Stdlib Require Import SpecFloat DecimalZ DecimalPos.
Import ListNotations.

Set Warnings "-register-all".

Open Scope string_scope.
Open Scope Z_scope.

(** ** Python values decoded from JSON *)

(** What [json.loads] produces: [None], [bool], [int], [float], [str],
    [list] and [dict] with string keys.  A dict is kept as its items in
    insertion order; its keys are pairwise distinct in Python, and lookup
    takes the first binding. *)
Inductive JSON : Type :=
| JNull
| JBool (b : bool)
| JInt (n : Z)
| JFloat (f : spec_float)
| JStr (s : string)
| JArr (items : list JSON)
| JObj (items : list (string * JSON)).

Fixpoint lookup {A} (k : string) (d : list (string * A)) : option A :=
  match d with
  | [] => None
  | (k', v) :: d' => if String.eqb k k' then Some v else lookup k d'
  end.

Definition keys {A} (d : list (string * A)) : list string := map fst d.

(** ** Exceptions (exceptions.py) *)

Module exceptions.

(** The class of a raised SDK error.  Only [RateLimitError] has the extra
    attribute [retry_after]. *)
Inductive error_class :=
| cGutsError
| cNotFoundError
| cUnauthorizedError
| cForbiddenError
| cRateLimitError (retry_after : option Z)
| cValidationError
| cServerError.

(** [GutsError.__init__] stores [message], [status_code] and [details]. *)
Record GutsError := mkGutsError {
  cls : error_class;
  message : JSON;
  status_code : Z;
  details : JSON
}.

(** [self.retry_after]; the attribute exists on [RateLimitError] only. *)
Definition retry_after (e : GutsError) : option (option Z) :=
  match cls e with
  | cRateLimitError r => Some r
  | _ => None
  end.

(** The subclasses' [__init__], each calling [super().__init__]. *)
Definition GutsError_ (message : JSON) (status_code : Z) (details : JSON) :=
  mkGutsError cGutsError message status_code details.

Definition NotFoundError (message details : JSON) :=
  mkGutsError cNotFoundError message 404 details.

Definition UnauthorizedError (message details : JSON) :=
  mkGutsError cUnauthorizedError message 401 details.

Definition ForbiddenError (message details : JSON) :=
  mkGutsError cForbiddenError message 403 details.

Definition RateLimitError (message : JSON) (retry_after : option Z) (details : JSON) :=
  mkGutsError (cRateLimitError retry_after) message 429 details.

Definition ValidationError (message details : JSON) :=
  mkGutsError cValidationError message 422 details.

Definition ServerError (message : JSON) (status_code : Z) (details : JSON) :=
  mkGutsError cServerError message status_code details.

(** Everything a call into the SDK can raise: its own errors, the Python
    built-ins met on ill-shaped payloads, and the errors of the two
    libraries underneath. *)
Inductive exn :=
| Guts (e : GutsError)
| AttributeError
| TypeError
| KeyError
| JSONDecodeError
| PydanticValidationError
| TransportError.

Inductive res (A : Type) :=
| Return (a : A)
| Raise (e : exn).
Arguments Return {A} a.
Arguments Raise {A} e.

Definition bind {A B} (x : res A) (k : A -> res B) : res B :=
  match x with
  | Return a => k a
  | Raise e => Raise e
  end.

(** [raise_for_status]: a chain of [if]/[elif]; falling off the end
    returns [None]. *)
Definition raise_for_status (status_code : Z) (message : JSON) (details : JSON)
  : res unit :=
  if status_code =? 401 then
    Raise (Guts (UnauthorizedError message details))
  else if status_code =? 403 then
    Raise (Guts (ForbiddenError message details))
  else if status_code =? 404 then
    Raise (Guts (NotFoundError message details))
  else if status_code =? 422 then
    Raise (Guts (ValidationError message details))
  else if status_code =? 429 then
    Raise (Guts (RateLimitError message None details))
  else if status_code >=? 500 then
    Raise (Guts (ServerError message status_code details))
  else if status_code >=? 400 then
    Raise (Guts (GutsError_ message status_code details))
  else
    Return tt.

End exceptions.
Export exceptions.

(** ** Python operations on decoded values *)

(** [x in data] for a string [x]: key membership on a dict, element
    membership on a list, substring test on a str; the other values are
    not containers. *)
Definition is_str (x : string) (j : JSON) : bool :=
  match j with
  | JStr s => String.eqb x s
  | _ => false
  end.

Definition py_contains (x : string) (data : JSON) : res bool :=
  match data with
  | JObj d => Return (existsb (String.eqb x) (keys d))
  | JArr l => Return (existsb (is_str x) l)
  | JStr s => Return (match index 0 x s with Some _ => true | None => false end)
  | _ => Raise TypeError
  end.

(** [data[k]] for a string [k]. *)
Definition py_getitem (data : JSON) (k : string) : res JSON :=
  match data with
  | JObj d => match lookup k d with Some v => Return v | None => Raise KeyError end
  | _ => Raise TypeError
  end.

(** [data.get(k, default)]: a method of dict only. *)
Definition py_get (data : JSON) (k : string) (default : JSON) : res JSON :=
  match data with
  | JObj d => Return (match lookup k d with Some v => v | None => default end)
  | _ => Raise AttributeError
  end.

Fixpoint chars (s : string) : list JSON :=
  match s with
  | EmptyString => []
  | String c s' => JStr (String c EmptyString) :: chars s'
  end.

(** [for item in data]: the elements of a list, the keys of a dict, the
    characters of a str (bytes here; only emptiness matters below). *)
Definition py_iter (data : JSON) : res (list JSON) :=
  match data with
  | JArr l => Return l
  | JObj d => Return (map JStr (keys d))
  | JStr s => Return (chars s)
  | _ => Raise TypeError
  end.

(** A list comprehension [[f(item) for item in l]]: left to right, the
    first exception ends it. *)
Fixpoint comprehension {A B} (f : A -> res B) (l : list A) : res (list B) :=
  match l with
  | [] => Return []
  | x :: l' =>
      match f x with
      | Return y =>
          match comprehension f l' with
          | Return ys => Return (y :: ys)
          | Raise e => Raise e
          end
      | Raise e => Raise e
      end
  end.

(** [str(n)] for an int. *)
Definition str (n : Z) : string := NilZero.string_of_int (Z.to_int n).

(** Python's [str()] on a decoded value that is not a str; on a str it is
    the identity.  The text of a float or of a container is the
    interpreter's. *)
Class Builtins := {
  repr_of : JSON -> string
}.

(** [f"{value}"] *)
Definition format `{Builtins} (value : JSON) : string :=
  match value with
  | JStr s => s
  | _ => repr_of value
  end.

(** [GutsError.__str__]: the status in brackets before the formatted
    message, unless the status is 0; then the message itself is returned,
    and [str()] raises [TypeError] when that is not a str. *)
Definition __str__ `{Builtins} (self : GutsError) : res string :=
  if negb (status_code self =? 0) then
    Return ("[" ++ str (status_code self) ++ "] " ++ format (message self))
  else
    match message self with
    | JStr s => Return s
    | _ => Raise TypeError
    end.

(** ** Data models (models.py) *)

Module models.

(** *** Enumerations: [class X(str, Enum)] *)

Module IssueState.
Inductive t := OPEN | CLOSED.
Definition value (x : t) : string :=
  match x with OPEN => "open" | CLOSED => "closed" end.
Definition members := [OPEN; CLOSED].
End IssueState.

Module PullRequestState.
Inductive t := OPEN | CLOSED | MERGED.
Definition value (x : t) : string :=
  match x with OPEN => "open" | CLOSED => "closed" | MERGED => "merged" end.
Definition members := [OPEN; CLOSED; MERGED].
End PullRequestState.

Module ReviewState.
Inductive t := PENDING | COMMENTED | APPROVED | CHANGES_REQUESTED | DISMISSED.
Definition value (x : t) : string :=
  match x with
  | PENDING => "pending"
  | COMMENTED => "commented"
  | APPROVED => "approved"
  | CHANGES_REQUESTED => "changes_requested"
  | DISMISSED => "dismissed"
  end.
Definition members := [PENDING; COMMENTED; APPROVED; CHANGES_REQUESTED; DISMISSED].
End ReviewState.

Module MergeMethod.
Inductive t := MERGE | SQUASH | REBASE.
Definition value (x : t) : string :=
  match x with MERGE => "merge" | SQUASH => "squash" | REBASE => "rebase" end.
Definition members := [MERGE; SQUASH; REBASE].
End MergeMethod.

Module WebhookEvent.
Inductive t :=
| PUSH | PULL_REQUEST | PULL_REQUEST_REVIEW | ISSUES | ISSUE_COMMENT
| CREATE | DELETE | RELEASE | FORK | STAR.
Definition value (x : t) : string :=
  match x with
  | PUSH => "push"
  | PULL_REQUEST => "pull_request"
  | PULL_REQUEST_REVIEW => "pull_request_review"
  | ISSUES => "issues"
  | ISSUE_COMMENT => "issue_comment"
  | CREATE => "create"
  | DELETE => "delete"
  | RELEASE => "release"
  | FORK => "fork"
  | STAR => "star"
  end.
Definition members :=
  [PUSH; PULL_REQUEST; PULL_REQUEST_REVIEW; ISSUES; ISSUE_COMMENT;
   CREATE; DELETE; RELEASE; FORK; STAR].
End WebhookEvent.

(** *** Validated values *)

(** A [datetime.datetime]: naive when [tzoffset] is [None], else aware
    with that offset from UTC in seconds. *)
Record datetime := {
  year : Z; month : Z; day : Z;
  hour : Z; minute : Z; second : Z; microsecond : Z;
  tzoffset : option Z
}.

(** The value of an attribute of a model instance. *)
Inductive value : Type :=
| VNone
| VBool (b : bool)
| VInt (n : Z)
| VStr (s : string)
| VDatetime (d : datetime)
| VEnum (v : string)
| VList (l : list value)
| VModel (name : string) (attrs : list (string * value)).

(** *** pydantic *)

(** The annotations pydantic coerces by rules of its own. *)
Inductive scalar := Tstr | Tint | Tbool | Tdatetime.

(** pydantic's validation of one scalar, [None] when it rejects the
    input.  Its coercion rules (which strings are a datetime, which
    inputs count as an int) are the library's, not the SDK's. *)
Class Pydantic := {
  coerce : scalar -> JSON -> option value
}.

(** What every version of the rules accepts: a JSON value that already
    has the annotated type, unchanged. *)
Class PydanticLaws (P : Pydantic) : Prop := {
  coerce_str : forall s, coerce Tstr (JStr s) = Some (VStr s);
  coerce_int : forall n, coerce Tint (JInt n) = Some (VInt n);
  coerce_bool : forall b, coerce Tbool (JBool b) = Some (VBool b)
}.

Definition validator := JSON -> option value.

Fixpoint all_some {A B} (f : A -> option B) (l : list A) : option (list B) :=
  match l with
  | [] => Some []
  | x :: l' =>
      match f x, all_some f l' with
      | Some y, Some ys => Some (y :: ys)
      | _, _ => None
      end
  end.

(** A field declaration [name: T] or [name: T = default]. *)
Record field := {
  fname : string;
  fvalidate : validator;
  fdefault : option value
}.

Record model := {
  model_name : string;
  model_fields : list field
}.

Definition required (name : string) (v : validator) : field :=
  {| fname := name; fvalidate := v; fdefault := None |}.

Definition defaulted (name : string) (v : validator) (d : value) : field :=
  {| fname := name; fvalidate := v; fdefault := Some d |}.

(** One field of [BaseModel.__init__] on keyword arguments: a supplied value is
    validated, a missing one takes the default (not validated), a missing
    required one is an error.  Keys that name no field are ignored. *)
Definition validate_field (kwargs : list (string * JSON)) (f : field) : option value :=
  match lookup (fname f) kwargs with
  | Some j => fvalidate f j
  | None => fdefault f
  end.

Fixpoint validate_fields (fs : list field) (kwargs : list (string * JSON))
  : option (list (string * value)) :=
  match fs with
  | [] => Some []
  | f :: fs' =>
      match validate_field kwargs f, validate_fields fs' kwargs with
      | Some v, Some r => Some ((fname f, v) :: r)
      | _, _ => None
      end
  end.

Definition validate (m : model) (kwargs : list (string * JSON)) : option value :=
  match validate_fields (model_fields m) kwargs with
  | Some attrs => Some (VModel (model_name m) attrs)
  | None => None
  end.

(** Unpacking [data] into keyword arguments of a model class: the
    unpacking needs a mapping; then pydantic validates. *)
Definition construct (m : model) (data : JSON) : res value :=
  match data with
  | JObj kwargs =>
      match validate m kwargs with
      | Some v => Return v
      | None => Raise PydanticValidationError
      end
  | _ => Raise TypeError
  end.

(** [instance.name] *)
Definition getattr (v : value) (name : string) : option value :=
  match v with
  | VModel _ attrs => lookup name attrs
  | _ => None
  end.

Section Annotations.
Context {P : Pydantic}.

Definition v_str : validator := coerce Tstr.
Definition v_int : validator := coerce Tint.
Definition v_bool : validator := coerce Tbool.
Definition v_datetime : validator := coerce Tdatetime.

(** [Optional[T]] *)
Definition v_optional (v : validator) : validator :=
  fun j => match j with JNull => Some VNone | _ => v j end.

(** [list[T]] *)
Definition v_list (v : validator) : validator :=
  fun j =>
    match j with
    | JArr l => option_map VList (all_some v l)
    | _ => None
    end.

(** A [str] enumeration: the input has to be the value of a member. *)
Definition v_enum (values : list string) : validator :=
  fun j =>
    match j with
    | JStr s => if existsb (String.eqb s) values then Some (VEnum s) else None
    | _ => None
    end.

(** A nested model. *)
Definition v_model (m : model) : validator :=
  fun j => match j with JObj kwargs => validate m kwargs | _ => None end.

(** [Field(default_factory=list)] *)
Definition empty_list : value := VList [].

(** *** Entities *)

Definition Repository : model := {|
  model_name := "Repository";
  model_fields := [
    required "key" v_str;
    required "name" v_str;
    required "owner" v_str;
    defaulted "description" (v_optional v_str) VNone;
    defaulted "private" v_bool (VBool false);
    defaulted "default_branch" v_str (VStr "main");
    required "clone_url" v_str;
    required "html_url" v_str;
    defaulted "open_issues_count" v_int (VInt 0);
    defaulted "open_pull_requests_count" v_int (VInt 0);
    required "created_at" v_datetime;
    required "updated_at" v_datetime;
    defaulted "pushed_at" (v_optional v_datetime) VNone
  ] |}.

Definition Issue : model := {|
  model_name := "Issue";
  model_fields := [
    required "id" v_str;
    required "number" v_int;
    required "title" v_str;
    defaulted "body" (v_optional v_str) VNone;
    required "state" (v_enum (map IssueState.value IssueState.members));
    required "author" v_str;
    defaulted "assignees" (v_list v_str) empty_list;
    defaulted "labels" (v_list v_str) empty_list;
    defaulted "milestone" (v_optional v_str) VNone;
    defaulted "comments_count" v_int (VInt 0);
    required "created_at" v_datetime;
    required "updated_at" v_datetime;
    defaulted "closed_at" (v_optional v_datetime) VNone;
    defaulted "closed_by" (v_optional v_str) VNone
  ] |}.

Definition PullRequest : model := {|
  model_name := "PullRequest";
  model_fields := [
    required "id" v_str;
    required "number" v_int;
    required "title" v_str;
    defaulted "body" (v_optional v_str) VNone;
    required "state" (v_enum (map PullRequestState.value PullRequestState.members));
    required "author" v_str;
    required "source_branch" v_str;
    required "target_branch" v_str;
    required "source_commit" v_str;
    required "target_commit" v_str;
    defaulted "mergeable" (v_optional v_bool) VNone;
    defaulted "draft" v_bool (VBool false);
    defaulted "reviewers" (v_list v_str) empty_list;
    defaulted "labels" (v_list v_str) empty_list;
    defaulted "comments_count" v_int (VInt 0);
    defaulted "commits_count" v_int (VInt 0);
    defaulted "changed_files" v_int (VInt 0);
    defaulted "additions" v_int (VInt 0);
    defaulted "deletions" v_int (VInt 0);
    required "created_at" v_datetime;
    required "updated_at" v_datetime;
    defaulted "merged_at" (v_optional v_datetime) VNone;
    defaulted "merged_by" (v_optional v_str) VNone;
    defaulted "closed_at" (v_optional v_datetime) VNone
  ] |}.

Definition Comment : model := {|
  model_name := "Comment";
  model_fields := [
    required "id" v_str;
    required "body" v_str;
    required "author" v_str;
    required "created_at" v_datetime;
    required "updated_at" v_datetime
  ] |}.

Definition Review : model := {|
  model_name := "Review";
  model_fields := [
    required "id" v_str;
    required "pr_number" v_int;
    required "author" v_str;
    required "state" (v_enum (map ReviewState.value ReviewState.members));
    defaulted "body" (v_optional v_str) VNone;
    required "commit_id" v_str;
    required "created_at" v_datetime;
    defaulted "submitted_at" (v_optional v_datetime) VNone
  ] |}.

Definition ReleaseAsset : model := {|
  model_name := "ReleaseAsset";
  model_fields := [
    required "id" v_str;
    required "name" v_str;
    required "content_type" v_str;
    required "size" v_int;
    defaulted "download_count" v_int (VInt 0);
    required "browser_download_url" v_str;
    required "created_at" v_datetime;
    required "uploader" v_str
  ] |}.

Definition Release : model := {|
  model_name := "Release";
  model_fields := [
    required "id" v_str;
    required "tag_name" v_str;
    required "name" v_str;
    defaulted "body" (v_optional v_str) VNone;
    defaulted "draft" v_bool (VBool false);
    defaulted "prerelease" v_bool (VBool false);
    required "author" v_str;
    required "target_commitish" v_str;
    defaulted "assets" (v_list (v_model ReleaseAsset)) empty_list;
    required "created_at" v_datetime;
    defaulted "published_at" (v_optional v_datetime) VNone
  ] |}.

Definition Label : model := {|
  model_name := "Label";
  model_fields := [
    required "name" v_str;
    required "color" v_str;
    defaulted "description" (v_optional v_str) VNone
  ] |}.

Definition User : model := {|
  model_name := "User";
  model_fields := [
    required "id" v_str;
    required "username" v_str;
    defaulted "display_name" (v_optional v_str) VNone;
    defaulted "avatar_url" (v_optional v_str) VNone;
    defaulted "bio" (v_optional v_str) VNone;
    required "public_key" v_str;
    required "created_at" v_datetime
  ] |}.

Definition Organization : model := {|
  model_name := "Organization";
  model_fields := [
    required "id" v_str;
    required "slug" v_str;
    defaulted "display_name" (v_optional v_str) VNone;
    defaulted "description" (v_optional v_str) VNone;
    defaulted "avatar_url" (v_optional v_str) VNone;
    defaulted "members_count" v_int (VInt 0);
    defaulted "repos_count" v_int (VInt 0);
    required "created_at" v_datetime
  ] |}.

Definition Team : model := {|
  model_name := "Team";
  model_fields := [
    required "id" v_str;
    required "slug" v_str;
    required "name" v_str;
    defaulted "description" (v_optional v_str) VNone;
    defaulted "permission" v_str (VStr "read");
    defaulted "members_count" v_int (VInt 0);
    defaulted "repos_count" v_int (VInt 0);
    required "created_at" v_datetime
  ] |}.

Definition Webhook : model := {|
  model_name := "Webhook";
  model_fields := [
    required "id" v_str;
    required "url" v_str;
    required "events" (v_list (v_enum (map WebhookEvent.value WebhookEvent.members)));
    defaulted "active" v_bool (VBool true);
    defaulted "secret" (v_optional v_str) VNone;
    defaulted "content_type" v_str (VStr "json");
    required "created_at" v_datetime;
    required "updated_at" v_datetime;
    defaulted "last_delivery_at" (v_optional v_datetime) VNone
  ] |}.

Definition ConsensusStatus : model := {|
  model_name := "ConsensusStatus";
  model_fields := [
    required "height" v_int;
    required "round" v_int;
    required "phase" v_str;
    required "synced" v_bool;
    required "peers_count" v_int;
    required "validators_count" v_int;
    required "mempool_size" v_int;
    defaulted "last_block_time" (v_optional v_datetime) VNone
  ] |}.

Definition Block : model := {|
  model_name := "Block";
  model_fields := [
    required "height" v_int;
    required "hash" v_str;
    required "parent_hash" v_str;
    required "timestamp" v_datetime;
    required "proposer" v_str;
    required "transactions_count" v_int;
    required "size" v_int
  ] |}.

Definition Validator : model := {|
  model_name := "Validator";
  model_fields := [
    required "public_key" v_str;
    required "address" v_str;
    required "active" v_bool;
    required "voting_power" v_int;
    defaulted "last_seen" (v_optional v_datetime) VNone
  ] |}.

(** Every entity of the module, in source order. *)
Definition entities : list model :=
  [Repository; Issue; PullRequest; Comment; Review; ReleaseAsset; Release;
   Label; User; Organization; Team; Webhook; ConsensusStatus; Block;
   Validator].

End Annotations.

(** *** Request models *)

Definition optional {A} (f : A -> JSON) (o : option A) : JSON :=
  match o with
  | Some a => f a
  | None => JNull
  end.

Definition is_none (j : JSON) : bool :=
  match j with
  | JNull => true
  | _ => false
  end.

(** [model_dump(exclude_none=...)] on the fields of an instance, given in
    declaration order. *)
Definition dump (exclude_none : bool) (d : list (string * JSON)) : list (string * JSON) :=
  if exclude_none then filter (fun kv => negb (is_none (snd kv))) d else d.

Module CreateRepositoryRequest.
Record t := {
  name : string;
  description : option string;
  private : bool;
  auto_init : bool
}.
Definition model_dump (exclude_none : bool) (r : t) :=
  dump exclude_none [
    ("name", JStr (name r));
    ("description", optional JStr (description r));
    ("private", JBool (private r));
    ("auto_init", JBool (auto_init r))
  ].
End CreateRepositoryRequest.

Module CreateIssueRequest.
Record t := {
  title : string;
  body : option string;
  labels : list string;
  assignees : list string
}.
Definition model_dump (exclude_none : bool) (r : t) :=
  dump exclude_none [
    ("title", JStr (title r));
    ("body", optional JStr (body r));
    ("labels", JArr (map JStr (labels r)));
    ("assignees", JArr (map JStr (assignees r)))
  ].
End CreateIssueRequest.

Module UpdateIssueRequest.
Record t := {
  title : option string;
  body : option string;
  state : option IssueState.t;
  labels : option (list string);
  assignees : option (list string)
}.
Definition model_dump (exclude_none : bool) (r : t) :=
  dump exclude_none [
    ("title", optional JStr (title r));
    ("body", optional JStr (body r));
    ("state", optional (fun s => JStr (IssueState.value s)) (state r));
    ("labels", optional (fun l => JArr (map JStr l)) (labels r));
    ("assignees", optional (fun l => JArr (map JStr l)) (assignees r))
  ].
End UpdateIssueRequest.

Module CreatePullRequestRequest.
Record t := {
  title : string;
  body : option string;
  source_branch : string;
  target_branch : string;
  draft : bool
}.
Definition model_dump (exclude_none : bool) (r : t) :=
  dump exclude_none [
    ("title", JStr (title r));
    ("body", optional JStr (body r));
    ("source_branch", JStr (source_branch r));
    ("target_branch", JStr (target_branch r));
    ("draft", JBool (draft r))
  ].
End CreatePullRequestRequest.

Module CreateReviewRequest.
Record t := {
  body : option string;
  state : string;
  commit_id : option string
}.
Definition model_dump (exclude_none : bool) (r : t) :=
  dump exclude_none [
    ("body", optional JStr (body r));
    ("state", JStr (state r));
    ("commit_id", optional JStr (commit_id r))
  ].
End CreateReviewRequest.

Module CreateReleaseRequest.
Record t := {
  tag_name : string;
  name : option string;
  body : option string;
  draft : bool;
  prerelease : bool;
  target_commitish : option string
}.
Definition model_dump (exclude_none : bool) (r : t) :=
  dump exclude_none [
    ("tag_name", JStr (tag_name r));
    ("name", optional JStr (name r));
    ("body", optional JStr (body r));
    ("draft", JBool (draft r));
    ("prerelease", JBool (prerelease r));
    ("target_commitish", optional JStr (target_commitish r))
  ].
End CreateReleaseRequest.

Module CreateWebhookRequest.
Record t := {
  url : string;
  events : list WebhookEvent.t;
  active : bool;
  secret : option string
}.
Definition model_dump (exclude_none : bool) (r : t) :=
  dump exclude_none [
    ("url", JStr (url r));
    ("events", JArr (map (fun e => JStr (WebhookEvent.value e)) (events r)));
    ("active", JBool (active r));
    ("secret", optional JStr (secret r))
  ].
End CreateWebhookRequest.

End models.
Export models.

(** ** The HTTP library under the client *)

Module httpx.

(** One call of [httpx.Client.request(method, path, params=, json=)]. *)
Record Request := {
  method : string;
  path : string;
  params : option (list (string * JSON));
  json_body : option JSON
}.

(** What the client reads of an [httpx.Response]: [json] is the result of
    [response.json()], [None] when that call raises. *)
Record Response := {
  status_code : Z;
  headers : list (string * string);
  text : string;
  json : option JSON
}.

(** [response.is_success]: a 2xx status. *)
Definition is_success (r : Response) : bool :=
  (200 <=? status_code r) && (status_code r <=? 299).

(** The connection and the server behind it: the answer to a request,
    which may depend on the requests sent before it; [None] when no
    response arrives and the library raises. *)
Class Httpx := {
  request : list Request -> Request -> option Response
}.

End httpx.

(** ** The client (client.py) *)

Module client.

(** A method call on the client: it may raise, and it extends the list of
    requests sent over the connection. *)
Definition M (A : Type) : Type := list httpx.Request -> res A * list httpx.Request.

Definition ret {A} (a : A) : M A := fun sent => (Return a, sent).

Definition mbind {A B} (m : M A) (k : A -> M B) : M B :=
  fun sent =>
    match m sent with
    | (Return a, sent') => k a sent'
    | (Raise e, sent') => (Raise e, sent')
    end.

Definition lift {A} (r : res A) : M A := fun sent => (r, sent).

Declare Scope client_scope.
Delimit Scope client_scope with client.
Notation "x <- m ;; k" := (mbind m (fun x => k))
  (at level 100, m at next level, right associativity) : client_scope.
Open Scope client_scope.

(** A keyword argument with a default value. *)
Definition arg {A} (given : option A) (default : A) : A :=
  match given with
  | Some a => a
  | None => default
  end.

(** [response.json()] *)
Definition response_json (response : httpx.Response) : res JSON :=
  match httpx.json response with
  | Some data => Return data
  | None => Raise JSONDecodeError
  end.

(** [response.text or message] *)
Definition text_or (response : httpx.Response) (message : JSON) : JSON :=
  match httpx.text response with
  | EmptyString => message
  | s => JStr s
  end.

(** The [try]/[except Exception] of [_request]: the message and details
    handed to [raise_for_status].  [message] is rebound in the [try] only
    by the statement that may raise last, so the handler sees the initial
    one. *)
Definition failure_message (response : httpx.Response) : JSON * JSON :=
  let message := JStr "Request failed" in
  let details := JNull in
  let attempt :=
    bind (response_json response) (fun data =>
    bind (py_contains "message" data) (fun has =>
    bind (if has then py_getitem data "message" else Return message) (fun message =>
    Return (message, data)))) in
  match attempt with
  | Return (message, details) => (message, details)
  | Raise _ => (text_or response message, details)
  end.

(** [s.rstrip(c)] for a one-character [c]: [s] without its trailing
    run of [c]. *)
Fixpoint rstrip (c : ascii) (s : string) : string :=
  match s with
  | EmptyString => EmptyString
  | String a s' =>
      match rstrip c s' with
      | EmptyString => if Ascii.eqb a c then EmptyString else String a EmptyString
      | r => String a r
      end
  end.

(** What [GutsClient.__init__] keeps on the instance; the timeout and the
    headers go to the connection. *)
Record GutsClient := {
  base_url : string;
  token : option string
}.

(** [GutsClient.__init__(base_url=..., token=None)] *)
Definition __init__ (base_url : option string) (token : option string) : GutsClient :=
  let base_url := arg base_url "https://api.guts.network" in
  {| base_url := rstrip "/"%char base_url; token := token |}.

(** [if self.token]: neither [None] nor the empty string. *)
Definition truthy (token : option string) : bool :=
  match token with
  | None | Some EmptyString => false
  | Some _ => true
  end.

(** [GutsClient._build_headers] *)
Definition _build_headers (self : GutsClient) : list (string * string) :=
  let headers := [("Accept", "application/json");
                  ("Content-Type", "application/json");
                  ("User-Agent", "guts-python/0.1.0")] in
  if truthy (token self) then
    (headers ++ [("Authorization", ("Bearer " ++ arg (token self) EmptyString)%string)])%list
  else headers.

Section Transport.
Context {H : httpx.Httpx}.

(** [GutsClient._request] *)
Definition _request (method path : string)
    (params : option (list (string * JSON))) (json : option JSON) : M JSON :=
  fun sent =>
    let req := {| httpx.method := method; httpx.path := path;
                  httpx.params := params; httpx.json_body := json |} in
    match httpx.request sent req with
    | None => (Raise TransportError, (sent ++ [req])%list)
    | Some response =>
        let raised :=
          if negb (httpx.is_success response) then
            let '(message, details) := failure_message response in
            raise_for_status (httpx.status_code response) message details
          else Return tt in
        (bind raised (fun _ =>
           if httpx.status_code response =? 204 then Return JNull
           else response_json response),
         (sent ++ [req])%list)
    end.

Definition _get (path : string) (params : option (list (string * JSON))) : M JSON :=
  _request "GET" path params None.

Definition _post (path : string) (json : option JSON) : M JSON :=
  _request "POST" path None json.

Definition _patch (path : string) (json : option JSON) : M JSON :=
  _request "PATCH" path None json.

Definition _delete (path : string) : M unit :=
  _ <- _request "DELETE" path None None ;;
  ret tt.

End Transport.

(** [[Model( **item) for item in data]] *)
Definition each (m : model) (data : JSON) : M (list value) :=
  items <- lift (py_iter data) ;;
  lift (comprehension (construct m) items).

(** [[Model( **item) for item in data.get("items", data)]] *)
Definition each_item (m : model) (data : JSON) : M (list value) :=
  payload <- lift (py_get data "items" data) ;;
  each m payload.

(** [Model( **data)] *)
Definition one (m : model) (data : JSON) : M value :=
  lift (construct m data).

(** A keyword of [**kwargs] that names a parameter of the method itself. *)
Definition colliding (parameters : list string) (kwargs : list (string * JSON)) : bool :=
  existsb (fun k => existsb (String.eqb k) parameters) (keys kwargs).

(** A method [def f(self, ..., **kwargs)] called with the keywords
    [kwargs]: Python binds the arguments before the body runs, and a
    keyword that names one of the parameters is a [TypeError] at the
    call. *)
Definition keywords {A} (parameters : list string) (kwargs : list (string * JSON))
    (body : M A) : M A :=
  if colliding parameters kwargs then lift (Raise TypeError) else body.

(** [class _RepositoryAPI], reached as [client.repos] *)
Module repos.
Section API.
Context {H : httpx.Httpx} {P : Pydantic}.

Definition list (page per_page : option Z) : M (list value) :=
  let page := arg page 1 in
  let per_page := arg per_page 30 in
  data <- _get "/api/repos" (Some [("page", JInt page); ("per_page", JInt per_page)]) ;;
  each_item Repository data.

Definition get (owner name : string) : M value :=
  data <- _get ("/api/repos/" ++ owner ++ "/" ++ name) None ;;
  one Repository data.

Definition create (name : string) (description : option string)
    (private : option bool) : M value :=
  let private := arg private false in
  data <- _post "/api/repos"
    (Some (JObj [("name", JStr name);
                 ("description", optional JStr description);
                 ("private", JBool private)])) ;;
  one Repository data.

Definition update (owner name : string) (kwargs : Datatypes.list (string * JSON))
  : M value :=
  keywords ["self"; "owner"; "name"] kwargs (
    data <- _patch ("/api/repos/" ++ owner ++ "/" ++ name) (Some (JObj kwargs)) ;;
    one Repository data).

Definition delete (owner name : string) : M unit :=
  _delete ("/api/repos/" ++ owner ++ "/" ++ name).

End API.
End repos.

(** [class _IssueAPI], reached as [client.issues] *)
Module issues.
Section API.
Context {H : httpx.Httpx} {P : Pydantic}.

Definition list (owner repo : string) (state : option string)
    (page per_page : option Z) : M (list value) :=
  let state := arg state "open" in
  let page := arg page 1 in
  let per_page := arg per_page 30 in
  data <- _get ("/api/repos/" ++ owner ++ "/" ++ repo ++ "/issues")
    (Some [("state", JStr state); ("page", JInt page); ("per_page", JInt per_page)]) ;;
  each_item Issue data.

Definition get (owner repo : string) (number : Z) : M value :=
  data <- _get ("/api/repos/" ++ owner ++ "/" ++ repo ++ "/issues/" ++ str number) None ;;
  one Issue data.

Definition create (owner repo : string) (request : CreateIssueRequest.t) : M value :=
  data <- _post ("/api/repos/" ++ owner ++ "/" ++ repo ++ "/issues")
    (Some (JObj (CreateIssueRequest.model_dump true request))) ;;
  one Issue data.

Definition update (owner repo : string) (number : Z)
    (kwargs : Datatypes.list (string * JSON)) : M value :=
  keywords ["self"; "owner"; "repo"; "number"] kwargs (
    data <- _patch ("/api/repos/" ++ owner ++ "/" ++ repo ++ "/issues/" ++ str number)
      (Some (JObj kwargs)) ;;
    one Issue data).

Definition close (owner repo : string) (number : Z) : M value :=
  update owner repo number [("state", JStr "closed")].

Definition reopen (owner repo : string) (number : Z) : M value :=
  update owner repo number [("state", JStr "open")].

Definition list_comments (owner repo : string) (number : Z) : M (Datatypes.list value) :=
  data <- _get ("/api/repos/" ++ owner ++ "/" ++ repo ++ "/issues/" ++ str number
                ++ "/comments") None ;;
  each Comment data.

Definition create_comment (owner repo : string) (number : Z) (body : string) : M value :=
  data <- _post ("/api/repos/" ++ owner ++ "/" ++ repo ++ "/issues/" ++ str number
                 ++ "/comments")
    (Some (JObj [("body", JStr body)])) ;;
  one Comment data.

End API.
End issues.

(** [class _PullRequestAPI], reached as [client.pulls] *)
Module pulls.
Section API.
Context {H : httpx.Httpx} {P : Pydantic}.

Definition list (owner repo : string) (state : option string)
    (page per_page : option Z) : M (list value) :=
  let state := arg state "open" in
  let page := arg page 1 in
  let per_page := arg per_page 30 in
  data <- _get ("/api/repos/" ++ owner ++ "/" ++ repo ++ "/pulls")
    (Some [("state", JStr state); ("page", JInt page); ("per_page", JInt per_page)]) ;;
  each_item PullRequest data.

Definition get (owner repo : string) (number : Z) : M value :=
  data <- _get ("/api/repos/" ++ owner ++ "/" ++ repo ++ "/pulls/" ++ str number) None ;;
  one PullRequest data.

Definition create (owner repo : string) (request : CreatePullRequestRequest.t)
  : M value :=
  data <- _post ("/api/repos/" ++ owner ++ "/" ++ repo ++ "/pulls")
    (Some (JObj (CreatePullRequestRequest.model_dump true request))) ;;
  one PullRequest data.

Definition update (owner repo : string) (number : Z)
    (kwargs : Datatypes.list (string * JSON)) : M value :=
  keywords ["self"; "owner"; "repo"; "number"] kwargs (
    data <- _patch ("/api/repos/" ++ owner ++ "/" ++ repo ++ "/pulls/" ++ str number)
      (Some (JObj kwargs)) ;;
    one PullRequest data).

Definition merge (owner repo : string) (number : Z) (method : option string) : M unit :=
  let method := arg method "merge" in
  _ <- _post ("/api/repos/" ++ owner ++ "/" ++ repo ++ "/pulls/" ++ str number ++ "/merge")
    (Some (JObj [("merge_method", JStr method)])) ;;
  ret tt.

Definition close (owner repo : string) (number : Z) : M value :=
  update owner repo number [("state", JStr "closed")].

Definition list_reviews (owner repo : string) (number : Z) : M (Datatypes.list value) :=
  data <- _get ("/api/repos/" ++ owner ++ "/" ++ repo ++ "/pulls/" ++ str number
                ++ "/reviews") None ;;
  each Review data.

Definition create_review (owner repo : string) (number : Z)
    (request : CreateReviewRequest.t) : M value :=
  data <- _post ("/api/repos/" ++ owner ++ "/" ++ repo ++ "/pulls/" ++ str number
                 ++ "/reviews")
    (Some (JObj (CreateReviewRequest.model_dump true request))) ;;
  one Review data.

End API.
End pulls.

(** [class _ReleaseAPI], reached as [client.releases] *)
Module releases.
Section API.
Context {H : httpx.Httpx} {P : Pydantic}.

Definition list (owner repo : string) : M (list value) :=
  data <- _get ("/api/repos/" ++ owner ++ "/" ++ repo ++ "/releases") None ;;
  each Release data.

Definition get (owner repo release_id : string) : M value :=
  data <- _get ("/api/repos/" ++ owner ++ "/" ++ repo ++ "/releases/" ++ release_id) None ;;
  one Release data.

Definition get_latest (owner repo : string) : M value :=
  data <- _get ("/api/repos/" ++ owner ++ "/" ++ repo ++ "/releases/latest") None ;;
  one Release data.

Definition create (owner repo : string) (request : CreateReleaseRequest.t) : M value :=
  data <- _post ("/api/repos/" ++ owner ++ "/" ++ repo ++ "/releases")
    (Some (JObj (CreateReleaseRequest.model_dump true request))) ;;
  one Release data.

Definition delete (owner repo release_id : string) : M unit :=
  _delete ("/api/repos/" ++ owner ++ "/" ++ repo ++ "/releases/" ++ release_id).

End API.
End releases.

(** [class _LabelAPI], reached as [client.labels] *)
Module labels.
Section API.
Context {H : httpx.Httpx} {P : Pydantic}.

Definition list (owner repo : string) : M (list value) :=
  data <- _get ("/api/repos/" ++ owner ++ "/" ++ repo ++ "/labels") None ;;
  each Label data.

Definition create (owner repo name color : string) (description : option string)
  : M value :=
  data <- _post ("/api/repos/" ++ owner ++ "/" ++ repo ++ "/labels")
    (Some (JObj [("name", JStr name);
                 ("color", JStr color);
                 ("description", optional JStr description)])) ;;
  one Label data.

Definition delete (owner repo name : string) : M unit :=
  _delete ("/api/repos/" ++ owner ++ "/" ++ repo ++ "/labels/" ++ name).

End API.
End labels.

(** [class _UserAPI], reached as [client.users] *)
Module users.
Section API.
Context {H : httpx.Httpx} {P : Pydantic}.

Definition me : M value :=
  data <- _get "/api/user" None ;;
  one User data.

Definition get (username : string) : M value :=
  data <- _get ("/api/users/" ++ username) None ;;
  one User data.

End API.
End users.

(** [class _OrganizationAPI], reached as [client.orgs] *)
Module orgs.
Section API.
Context {H : httpx.Httpx} {P : Pydantic}.

Definition list : M (list value) :=
  data <- _get "/api/user/orgs" None ;;
  each Organization data.

Definition get (org : string) : M value :=
  data <- _get ("/api/orgs/" ++ org) None ;;
  one Organization data.

Definition list_teams (org : string) : M (Datatypes.list value) :=
  data <- _get ("/api/orgs/" ++ org ++ "/teams") None ;;
  each Team data.

Definition get_team (org team_slug : string) : M value :=
  data <- _get ("/api/orgs/" ++ org ++ "/teams/" ++ team_slug) None ;;
  one Team data.

End API.
End orgs.

(** [class _WebhookAPI], reached as [client.webhooks] *)
Module webhooks.
Section API.
Context {H : httpx.Httpx} {P : Pydantic}.

Definition list (owner repo : string) : M (list value) :=
  data <- _get ("/api/repos/" ++ owner ++ "/" ++ repo ++ "/hooks") None ;;
  each Webhook data.

Definition create (owner repo : string) (request : CreateWebhookRequest.t) : M value :=
  data <- _post ("/api/repos/" ++ owner ++ "/" ++ repo ++ "/hooks")
    (Some (JObj (CreateWebhookRequest.model_dump true request))) ;;
  one Webhook data.

Definition delete (owner repo hook_id : string) : M unit :=
  _delete ("/api/repos/" ++ owner ++ "/" ++ repo ++ "/hooks/" ++ hook_id).

End API.
End webhooks.

(** [class _ConsensusAPI], reached as [client.consensus] *)
Module consensus.
Section API.
Context {H : httpx.Httpx} {P : Pydantic}.

Definition status : M value :=
  data <- _get "/api/consensus/status" None ;;
  one ConsensusStatus data.

Definition list_blocks (limit : option Z) : M (list value) :=
  let limit := arg limit 10 in
  data <- _get "/api/consensus/blocks" (Some [("limit", JInt limit)]) ;;
  each Block data.

Definition get_block (height : Z) : M value :=
  data <- _get ("/api/consensus/blocks/" ++ str height) None ;;
  one Block data.

Definition list_validators : M (list value) :=
  data <- _get "/api/consensus/validators" None ;;
  each Validator data.

End API.
End consensus.

End client.

(** ** Instances used to run the client *)

Module fixtures.

Definition digit (c : ascii) : option Z :=
  let n := Z.of_nat (nat_of_ascii c) - 48 in
  if (0 <=? n) && (n <=? 9) then Some n else None.

Fixpoint number (acc : Z) (cs : list ascii) : option Z :=
  match cs with
  | [] => Some acc
  | c :: cs' =>
      match digit c with
      | Some d => number (10 * acc + d) cs'
      | None => None
      end
  end.

(** The timestamps of the form [YYYY-MM-DDTHH:MM:SSZ]. *)
Definition utc_timestamp (s : string) : option datetime :=
  match list_ascii_of_string s with
  | [y1; y2; y3; y4; "-"; m1; m2; "-"; d1; d2; "T";
     h1; h2; ":"; n1; n2; ":"; s1; s2; "Z"]%char =>
      match number 0 [y1; y2; y3; y4], number 0 [m1; m2], number 0 [d1; d2],
            number 0 [h1; h2], number 0 [n1; n2], number 0 [s1; s2] with
      | Some y, Some m, Some d, Some h, Some n, Some s =>
          Some {| year := y; month := m; day := d;
                  hour := h; minute := n; second := s; microsecond := 0;
                  tzoffset := Some 0 |}
      | _, _, _, _, _, _ => None
      end
  | _ => None
  end.

(** A pydantic that accepts exactly the JSON value of the annotated type,
    and as datetime the UTC timestamps above. *)
Definition json_types : Pydantic := {|
  coerce t j :=
    match t, j with
    | Tstr, JStr s => Some (VStr s)
    | Tint, JInt n => Some (VInt n)
    | Tbool, JBool b => Some (VBool b)
    | Tdatetime, JStr s => option_map VDatetime (utc_timestamp s)
    | _, _ => None
    end
|}.

(** A server that gives the same answer to every request. *)
Definition stub (response : httpx.Response) : httpx.Httpx := {|
  httpx.request _ _ := Some response
|}.

Definition reply (status_code : Z) (text : string) (json : option JSON) : httpx.Response :=
  {| httpx.status_code := status_code; httpx.headers := [];
     httpx.text := text; httpx.json := json |}.

(** The repository of the [repos.get("alice", "demo")] scenario. *)
Definition alice_demo : JSON :=
  JObj [("key", JStr "alice/demo");
        ("name", JStr "demo");
        ("owner", JStr "alice");
        ("clone_url", JStr "https://x/demo.git");
        ("html_url", JStr "https://x/alice/demo");
        ("created_at", JStr "2024-01-01T00:00:00Z");
        ("updated_at", JStr "2024-01-01T00:00:00Z")].

(** [s] between double quotes. *)
Definition quoted (s : string) : string :=
  String (ascii_of_nat 34) s ++ String (ascii_of_nat 34) EmptyString.

(** The text of a JSON object, given the texts of its members. *)
Definition object (members : list string) : string :=
  "{" ++ String.concat ", " members ++ "}".

Definition member (k text : string) : string := quoted k ++ ": " ++ text.

Definition alice_demo_text : string :=
  object [member "key" (quoted "alice/demo");
          member "name" (quoted "demo");
          member "owner" (quoted "alice");
          member "clone_url" (quoted "https://x/demo.git");
          member "html_url" (quoted "https://x/alice/demo");
          member "created_at" (quoted "2024-01-01T00:00:00Z");
          member "updated_at" (quoted "2024-01-01T00:00:00Z")].

(** 200 with the repository as body. *)
Definition one_repository : httpx.Response :=
  reply 200 alice_demo_text (Some alice_demo).

(** 200 with a bare array of one repository. *)
Definition bare_array : httpx.Response :=
  reply 200 ("[" ++ alice_demo_text ++ "]") (Some (JArr [alice_demo])).

(** 200 with an envelope around one repository. *)
Definition repository_envelope : httpx.Response :=
  reply 200
    (object [member "items" ("[" ++ alice_demo_text ++ "]"); member "total" "1"])
    (Some (JObj [("items", JArr [alice_demo]); ("total", JInt 1)])).

(** 200 with an envelope around one label. *)
Definition label_envelope : httpx.Response :=
  reply 200
    (object [member "items"
               ("[" ++ object [member "name" (quoted "bug");
                               member "color" (quoted "d73a4a")] ++ "]");
             member "total" "1"])
    (Some (JObj [("items", JArr [JObj [("name", JStr "bug"); ("color", JStr "d73a4a")]]);
                 ("total", JInt 1)])).

(** 200 with a bare array of two labels. *)
Definition two_labels : httpx.Response :=
  reply 200
    ("[" ++ object [member "name" (quoted "bug"); member "color" (quoted "d73a4a")]
     ++ ", "
     ++ object [member "name" (quoted "docs"); member "color" (quoted "0075ca")] ++ "]")
    (Some (JArr [JObj [("name", JStr "bug"); ("color", JStr "d73a4a")];
                 JObj [("name", JStr "docs"); ("color", JStr "0075ca")]])).

(** 200 with an issue that is closed. *)
Definition closed_issue : httpx.Response :=
  reply 200
    (object [member "id" (quoted "i-7"); member "number" "7";
             member "title" (quoted "crash"); member "state" (quoted "closed");
             member "author" (quoted "alice");
             member "created_at" (quoted "2024-01-01T00:00:00Z");
             member "updated_at" (quoted "2024-01-02T00:00:00Z")])
    (Some (JObj [("id", JStr "i-7"); ("number", JInt 7);
                 ("title", JStr "crash"); ("state", JStr "closed");
                 ("author", JStr "alice");
                 ("created_at", JStr "2024-01-01T00:00:00Z");
                 ("updated_at", JStr "2024-01-02T00:00:00Z")])).

(** 404 with a message. *)
Definition issue_not_found : httpx.Response :=
  reply 404 (object [member "message" (quoted "issue not found")])
    (Some (JObj [("message", JStr "issue not found")])).

(** A 429 answer that declares when to retry. *)
Definition too_many_requests : httpx.Response :=
  {| httpx.status_code := 429;
     httpx.headers := [("Retry-After", "30")];
     httpx.text := object [member "message" (quoted "slow down")];
     httpx.json := Some (JObj [("message", JStr "slow down")]) |}.

End fixtures.

(** ** Vocabulary of the properties *)

Import client.

Definition GET (path : string) (params : option (list (string * JSON))) : httpx.Request :=
  {| httpx.method := "GET"; httpx.path := path;
     httpx.params := params; httpx.json_body := None |}.

Definition POST (path : string) (body : JSON) : httpx.Request :=
  {| httpx.method := "POST"; httpx.path := path;
     httpx.params := None; httpx.json_body := Some body |}.

Definition PATCH (path : string) (body : JSON) : httpx.Request :=
  {| httpx.method := "PATCH"; httpx.path := path;
     httpx.params := None; httpx.json_body := Some body |}.

Definition DELETE (path : string) : httpx.Request :=
  {| httpx.method := "DELETE"; httpx.path := path;
     httpx.params := None; httpx.json_body := None |}.


(** The pagination parameters with their defaults. *)
Definition page_query (page per_page : option Z) : list (string * JSON) :=
  [("page", JInt (match page with Some p => p | None => 1 end));
   ("per_page", JInt (match per_page with Some n => n | None => 30 end))].

(** A continuation that sends nothing. *)
Definition silent {A B} (k : A -> M B) : Prop :=
  forall a sent, snd (k a sent) = sent.

(** The parsed bodies on which [_request] cannot read a message: testing
    ["message" in data] raises on [None], a bool and a number, and
    [data["message"]] raises on a list or str that contains
    ["message"]. *)
Definition message_unreadable (data : JSON) : bool :=
  match data with
  | JNull | JBool _ | JInt _ | JFloat _ => true
  | JStr s => match index 0 "message" s with Some _ => true | None => false end
  | JArr l => existsb (is_str "message") l
  | JObj _ => false
  end.

(** The declared default of the field [name] of a model. *)
Definition default_of (m : model) (name : string) : option value :=
  match find (fun f => String.eqb name (fname f)) (model_fields m) with
  | Some f => fdefault f
  | None => None
  end.

(** The keyword arguments supply every required field with a value its
    validation accepts, and no field that has a default. *)
Definition only_required_of (fs : list field) (kwargs : list (string * JSON)) : Prop :=
  Forall (fun f =>
            match fdefault f with
            | None => exists j v, lookup (fname f) kwargs = Some j /\ fvalidate f j = Some v
            | Some _ => lookup (fname f) kwargs = None
            end) fs.

Definition only_required (m : model) (kwargs : list (string * JSON)) : Prop :=
  only_required_of (model_fields m) kwargs.

(** *** The operations of the client

    One constructor for every method of the nine facades, with the
    arguments of the method. *)
Inductive call : Type :=
| repos_list (page per_page : option Z)
| repos_get (owner name : string)
| repos_create (name : string) (description : option string) (private : option bool)
| repos_update (owner name : string) (kwargs : list (string * JSON))
| repos_delete (owner name : string)
| issues_list (owner repo : string) (state : option string) (page per_page : option Z)
| issues_get (owner repo : string) (number : Z)
| issues_create (owner repo : string) (request : CreateIssueRequest.t)
| issues_update (owner repo : string) (number : Z) (kwargs : list (string * JSON))
| issues_close (owner repo : string) (number : Z)
| issues_reopen (owner repo : string) (number : Z)
| issues_list_comments (owner repo : string) (number : Z)
| issues_create_comment (owner repo : string) (number : Z) (body : string)
| pulls_list (owner repo : string) (state : option string) (page per_page : option Z)
| pulls_get (owner repo : string) (number : Z)
| pulls_create (owner repo : string) (request : CreatePullRequestRequest.t)
| pulls_update (owner repo : string) (number : Z) (kwargs : list (string * JSON))
| pulls_merge (owner repo : string) (number : Z) (method : option string)
| pulls_close (owner repo : string) (number : Z)
| pulls_list_reviews (owner repo : string) (number : Z)
| pulls_create_review (owner repo : string) (number : Z) (request : CreateReviewRequest.t)
| releases_list (owner repo : string)
| releases_get (owner repo release_id : string)
| releases_get_latest (owner repo : string)
| releases_create (owner repo : string) (request : CreateReleaseRequest.t)
| releases_delete (owner repo release_id : string)
| labels_list (owner repo : string)
| labels_create (owner repo name color : string) (description : option string)
| labels_delete (owner repo name : string)
| users_me
| users_get (username : string)
| orgs_list
| orgs_get (org : string)
| orgs_list_teams (org : string)
| orgs_get_team (org team_slug : string)
| webhooks_list (owner repo : string)
| webhooks_create (owner repo : string) (request : CreateWebhookRequest.t)
| webhooks_delete (owner repo hook_id : string)
| consensus_status
| consensus_list_blocks (limit : option Z)
| consensus_get_block (height : Z)
| consensus_list_validators.

(** A call for its outcome alone: what it returns is dropped. *)
Definition void {A} (m : M A) : M unit :=
  mbind m (fun _ => ret tt).

(** Running a call on the client. *)
Definition perform {H : httpx.Httpx} {P : Pydantic} (c : call) : M unit :=
  match c with
  | repos_list page per_page => void (repos.list page per_page)
  | repos_get owner name => void (repos.get owner name)
  | repos_create name description private => void (repos.create name description private)
  | repos_update owner name kwargs => void (repos.update owner name kwargs)
  | repos_delete owner name => void (repos.delete owner name)
  | issues_list owner repo state page per_page => void (issues.list owner repo state page per_page)
  | issues_get owner repo number => void (issues.get owner repo number)
  | issues_create owner repo request => void (issues.create owner repo request)
  | issues_update owner repo number kwargs => void (issues.update owner repo number kwargs)
  | issues_close owner repo number => void (issues.close owner repo number)
  | issues_reopen owner repo number => void (issues.reopen owner repo number)
  | issues_list_comments owner repo number => void (issues.list_comments owner repo number)
  | issues_create_comment owner repo number body =>
      void (issues.create_comment owner repo number body)
  | pulls_list owner repo state page per_page => void (pulls.list owner repo state page per_page)
  | pulls_get owner repo number => void (pulls.get owner repo number)
  | pulls_create owner repo request => void (pulls.create owner repo request)
  | pulls_update owner repo number kwargs => void (pulls.update owner repo number kwargs)
  | pulls_merge owner repo number method => void (pulls.merge owner repo number method)
  | pulls_close owner repo number => void (pulls.close owner repo number)
  | pulls_list_reviews owner repo number => void (pulls.list_reviews owner repo number)
  | pulls_create_review owner repo number request =>
      void (pulls.create_review owner repo number request)
  | releases_list owner repo => void (releases.list owner repo)
  | releases_get owner repo release_id => void (releases.get owner repo release_id)
  | releases_get_latest owner repo => void (releases.get_latest owner repo)
  | releases_create owner repo request => void (releases.create owner repo request)
  | releases_delete owner repo release_id => void (releases.delete owner repo release_id)
  | labels_list owner repo => void (labels.list owner repo)
  | labels_create owner repo name color description =>
      void (labels.create owner repo name color description)
  | labels_delete owner repo name => void (labels.delete owner repo name)
  | users_me => void (users.me)
  | users_get username => void (users.get username)
  | orgs_list => void (orgs.list)
  | orgs_get org => void (orgs.get org)
  | orgs_list_teams org => void (orgs.list_teams org)
  | orgs_get_team org team_slug => void (orgs.get_team org team_slug)
  | webhooks_list owner repo => void (webhooks.list owner repo)
  | webhooks_create owner repo request => void (webhooks.create owner repo request)
  | webhooks_delete owner repo hook_id => void (webhooks.delete owner repo hook_id)
  | consensus_status => void (consensus.status)
  | consensus_list_blocks limit => void (consensus.list_blocks limit)
  | consensus_get_block height => void (consensus.get_block height)
  | consensus_list_validators => void (consensus.list_validators)
  end.

(** The request of a call: verb, path, query and body. *)
Definition request_of (c : call) : httpx.Request :=
  match c with
  | repos_list page per_page =>
      GET "/api/repos" (Some (page_query page per_page))
  | repos_get owner name =>
      GET ("/api/repos/" ++ owner ++ "/" ++ name) None
  | repos_create name description private =>
      POST "/api/repos"
        (JObj [("name", JStr name); ("description", optional JStr description);
                 ("private", JBool (match private with Some b => b | None => false end))])
  | repos_update owner name kwargs =>
      PATCH ("/api/repos/" ++ owner ++ "/" ++ name) (JObj kwargs)
  | repos_delete owner name =>
      DELETE ("/api/repos/" ++ owner ++ "/" ++ name)
  | issues_list owner repo state page per_page =>
      GET ("/api/repos/" ++ owner ++ "/" ++ repo ++ "/issues")
        (Some (("state", JStr (match state with Some s => s | None => "open" end))
               :: page_query page per_page))
  | issues_get owner repo number =>
      GET ("/api/repos/" ++ owner ++ "/" ++ repo ++ "/issues/" ++ str number) None
  | issues_create owner repo request =>
      POST ("/api/repos/" ++ owner ++ "/" ++ repo ++ "/issues")
        (JObj (CreateIssueRequest.model_dump true request))
  | issues_update owner repo number kwargs =>
      PATCH ("/api/repos/" ++ owner ++ "/" ++ repo ++ "/issues/" ++ str number) (JObj kwargs)
  | issues_close owner repo number =>
      PATCH ("/api/repos/" ++ owner ++ "/" ++ repo ++ "/issues/" ++ str number)
        (JObj [("state", JStr "closed")])
  | issues_reopen owner repo number =>
      PATCH ("/api/repos/" ++ owner ++ "/" ++ repo ++ "/issues/" ++ str number)
        (JObj [("state", JStr "open")])
  | issues_list_comments owner repo number =>
      GET ("/api/repos/" ++ owner ++ "/" ++ repo ++ "/issues/" ++ str number ++ "/comments") None
  | issues_create_comment owner repo number body =>
      POST ("/api/repos/" ++ owner ++ "/" ++ repo ++ "/issues/" ++ str number ++ "/comments")
        (JObj [("body", JStr body)])
  | pulls_list owner repo state page per_page =>
      GET ("/api/repos/" ++ owner ++ "/" ++ repo ++ "/pulls")
        (Some (("state", JStr (match state with Some s => s | None => "open" end))
               :: page_query page per_page))
  | pulls_get owner repo number =>
      GET ("/api/repos/" ++ owner ++ "/" ++ repo ++ "/pulls/" ++ str number) None
  | pulls_create owner repo request =>
      POST ("/api/repos/" ++ owner ++ "/" ++ repo ++ "/pulls")
        (JObj (CreatePullRequestRequest.model_dump true request))
  | pulls_update owner repo number kwargs =>
      PATCH ("/api/repos/" ++ owner ++ "/" ++ repo ++ "/pulls/" ++ str number) (JObj kwargs)
  | pulls_merge owner repo number method =>
      POST ("/api/repos/" ++ owner ++ "/" ++ repo ++ "/pulls/" ++ str number ++ "/merge")
        (JObj [("merge_method", JStr (match method with Some m => m | None => "merge" end))])
  | pulls_close owner repo number =>
      PATCH ("/api/repos/" ++ owner ++ "/" ++ repo ++ "/pulls/" ++ str number)
        (JObj [("state", JStr "closed")])
  | pulls_list_reviews owner repo number =>
      GET ("/api/repos/" ++ owner ++ "/" ++ repo ++ "/pulls/" ++ str number ++ "/reviews") None
  | pulls_create_review owner repo number request =>
      POST ("/api/repos/" ++ owner ++ "/" ++ repo ++ "/pulls/" ++ str number ++ "/reviews")
        (JObj (CreateReviewRequest.model_dump true request))
  | releases_list owner repo =>
      GET ("/api/repos/" ++ owner ++ "/" ++ repo ++ "/releases") None
  | releases_get owner repo release_id =>
      GET ("/api/repos/" ++ owner ++ "/" ++ repo ++ "/releases/" ++ release_id) None
  | releases_get_latest owner repo =>
      GET ("/api/repos/" ++ owner ++ "/" ++ repo ++ "/releases/latest") None
  | releases_create owner repo request =>
      POST ("/api/repos/" ++ owner ++ "/" ++ repo ++ "/releases")
        (JObj (CreateReleaseRequest.model_dump true request))
  | releases_delete owner repo release_id =>
      DELETE ("/api/repos/" ++ owner ++ "/" ++ repo ++ "/releases/" ++ release_id)
  | labels_list owner repo =>
      GET ("/api/repos/" ++ owner ++ "/" ++ repo ++ "/labels") None
  | labels_create owner repo name color description =>
      POST ("/api/repos/" ++ owner ++ "/" ++ repo ++ "/labels")
        (JObj [("name", JStr name); ("color", JStr color);
                 ("description", optional JStr description)])
  | labels_delete owner repo name =>
      DELETE ("/api/repos/" ++ owner ++ "/" ++ repo ++ "/labels/" ++ name)
  | users_me =>
      GET "/api/user" None
  | users_get username =>
      GET ("/api/users/" ++ username) None
  | orgs_list =>
      GET "/api/user/orgs" None
  | orgs_get org =>
      GET ("/api/orgs/" ++ org) None
  | orgs_list_teams org =>
      GET ("/api/orgs/" ++ org ++ "/teams") None
  | orgs_get_team org team_slug =>
      GET ("/api/orgs/" ++ org ++ "/teams/" ++ team_slug) None
  | webhooks_list owner repo =>
      GET ("/api/repos/" ++ owner ++ "/" ++ repo ++ "/hooks") None
  | webhooks_create owner repo request =>
      POST ("/api/repos/" ++ owner ++ "/" ++ repo ++ "/hooks")
        (JObj (CreateWebhookRequest.model_dump true request))
  | webhooks_delete owner repo hook_id =>
      DELETE ("/api/repos/" ++ owner ++ "/" ++ repo ++ "/hooks/" ++ hook_id)
  | consensus_status =>
      GET "/api/consensus/status" None
  | consensus_list_blocks limit =>
      GET "/api/consensus/blocks"
        (Some [("limit", JInt (match limit with Some n => n | None => 10 end))])
  | consensus_get_block height =>
      GET ("/api/consensus/blocks/" ++ str height) None
  | consensus_list_validators =>
      GET "/api/consensus/validators" None
  end.

(** The methods that return [None]: the deletions and [pulls.merge]. *)
Definition returns_nothing (c : call) : bool :=
  match c with
  | repos_delete _ _
  | pulls_merge _ _ _ _
  | releases_delete _ _ _
  | labels_delete _ _ _
  | webhooks_delete _ _ _ => true
  | _ => false
  end.

(** The calls Python rejects while binding the arguments: an update whose
    keywords name a parameter of the method. *)
Definition rejected (c : call) : bool :=
  match c with
  | repos_update _ _ kwargs => colliding ["self"; "owner"; "name"] kwargs
  | issues_update _ _ _ kwargs => colliding ["self"; "owner"; "repo"; "number"] kwargs
  | pulls_update _ _ _ kwargs => colliding ["self"; "owner"; "repo"; "number"] kwargs
  | _ => false
  end.

(** The list methods that take [page] and [per_page]. *)
Definition paginated (c : call) : bool :=
  match c with
  | repos_list _ _
  | issues_list _ _ _ _ _
  | pulls_list _ _ _ _ _ => true
  | _ => false
  end.

(** The key of a field in a dump that leaves out [None]. *)
Definition present {A} (k : string) (o : option A) : list string :=
  match o with
  | Some _ => [k]
  | None => []
  end.

(** The names of the fields declared without a default. *)
Definition required_names (m : model) : list string :=
  map fname (filter (fun f => match fdefault f with None => true | Some _ => false end)
               (model_fields m)).

(** Validation of a value for the field [name] of a model. *)
Definition validate_attr (m : model) (name : string) (j : JSON) : option value :=
  match find (fun f => String.eqb name (fname f)) (model_fields m) with
  | Some f => fvalidate f j
  | None => None
  end.

(** [n] copies of the character [c]. *)
Fixpoint replicate (n : nat) (c : ascii) : string :=
  match n with
  | O => EmptyString
  | S n' => String c (replicate n' c)
  end.

(** A [Builtins] for messages that are str. *)
Definition no_repr : Builtins := {| repr_of _ := EmptyString |}.

(** The names of the fields of a model. *)
Definition field_names (m : model) : list string := map fname (model_fields m).

(** The elements of [l] decode up to one that raises [e]. *)
Definition first_failure (m : model) (l : list JSON) (e : exn) : Prop :=
  exists before item after,
    l = (before ++ item :: after)%list /\
    Forall (fun j => exists v, construct m j = Return v) before /\
    construct m item = Raise e.

(** * Properties *)

(** ** Error dispatch *)

(** Decide every comparison of status codes in the goal, dropping the
    branches that contradict the hypotheses. *)
Ltac branches :=
  repeat match goal with
    | |- context [?a =? ?b] => destruct (Z.eqb_spec a b); try lia
    | |- context [?a >=? ?b] => destruct (Z.geb_spec a b); try lia
    | |- context [?a <=? ?b] => destruct (Z.leb_spec a b); try lia
    end.

Section Dispatch.

Variables (status : Z) (message details : JSON).

Let raises (c : error_class) : Prop :=
  raise_for_status status message details
  = Raise (Guts (mkGutsError c message status details)).

(** C1: [raise_for_status] raises the error class of the status code with
    the given message, the status and the given details: 401
    [UnauthorizedError], 403 [ForbiddenError], 404 [NotFoundError], 422
    [ValidationError], 429 [RateLimitError], every code from 500 up
    [ServerError] with that code, and every other code of 400..499 the
    base [GutsError] with that code. *)
Theorem raise_for_status_dispatch :
  (status = 401 -> raises cUnauthorizedError) /\
  (status = 403 -> raises cForbiddenError) /\
  (status = 404 -> raises cNotFoundError) /\
  (status = 422 -> raises cValidationError) /\
  (status = 429 -> raises (cRateLimitError None)) /\
  (500 <= status -> raises cServerError) /\
  (400 <= status <= 499 -> ~ In status [401; 403; 404; 422; 429] ->
   raises cGutsError).
Proof.
  unfold raises, raise_for_status.
  repeat split; intros.
  1-5: subst; reflexivity.
  - branches. reflexivity.
  - assert (status <> 401 /\ status <> 403 /\ status <> 404 /\
            status <> 422 /\ status <> 429) by (simpl in *; intuition congruence).
    branches. reflexivity.
Qed.

End Dispatch.

Lemma raise_for_status_dispatch_witness :
  raise_for_status 404 (JStr "issue not found") JNull
  = Raise (Guts (NotFoundError (JStr "issue not found") JNull)) /\
  raise_for_status 503 (JStr "down") (JInt 7)
  = Raise (Guts (ServerError (JStr "down") 503 (JInt 7))) /\
  raise_for_status 418 (JStr "teapot") JNull
  = Raise (Guts (GutsError_ (JStr "teapot") 418 JNull)).
Proof.
  split; [|split].
  - apply (raise_for_status_dispatch 404 (JStr "issue not found") JNull).
    reflexivity.
  - apply (raise_for_status_dispatch 503 (JStr "down") (JInt 7)).
    lia.
  - apply (raise_for_status_dispatch 418 (JStr "teapot") JNull).
    + lia.
    + simpl. lia.
Defined.

(** Every status from 400 up raises an SDK error that carries the message,
    the status and the details it was given. *)
Lemma raise_for_status_error (status : Z) (message details : JSON) :
  400 <= status ->
  exists c, raise_for_status status message details
            = Raise (Guts (mkGutsError c message status details)).
Proof.
  intros Hs. unfold raise_for_status.
  branches; subst; eexists; reflexivity.
Qed.

(** ** Transport *)

Section Request.

Context {H : httpx.Httpx}.
Variables (method path : string) (params : option (list (string * JSON)))
          (json : option JSON).
Variables (sent : list httpx.Request) (response : httpx.Response).

Let req : httpx.Request :=
  {| httpx.method := method; httpx.path := path;
     httpx.params := params; httpx.json_body := json |}.

Hypothesis answered : httpx.request sent req = Some response.

(** The request is sent once, whatever comes back. *)
Lemma _request_sent :
  snd (_request method path params json sent) = (sent ++ [req])%list.
Proof.
  unfold _request. fold req. rewrite answered. reflexivity.
Qed.

(** A 2xx answer other than 204 yields the decoded body. *)
Lemma _request_success :
  httpx.is_success response = true ->
  httpx.status_code response <> 204 ->
  _request method path params json sent = (response_json response, (sent ++ [req])%list).
Proof.
  intros Hok H204. unfold _request. fold req. rewrite answered, Hok. simpl.
  destruct (Z.eqb_spec (httpx.status_code response) 204); [contradiction | reflexivity].
Qed.

(** A status from 400 up raises an SDK error built from
    [failure_message]. *)
Lemma _request_failure :
  400 <= httpx.status_code response ->
  exists c,
    _request method path params json sent
    = (Raise (Guts (mkGutsError c (fst (failure_message response))
                      (httpx.status_code response)
                      (snd (failure_message response)))),
       (sent ++ [req])%list).
Proof.
  intros Hs. unfold _request. fold req. rewrite answered.
  assert (httpx.is_success response = false) as ->.
  { unfold httpx.is_success. branches; reflexivity. }
  simpl. destruct (failure_message response) as [m d]. simpl.
  destruct (raise_for_status_error _ m d Hs) as [c ->].
  exists c. reflexivity.
Qed.

(** C9: [raise_for_status] returns normally for every status below 400;
    so an answer that is not 2xx and below 400 (1xx, 3xx) raises no SDK
    error, and [_request] goes on to decode and return its body, the same
    way it does for a 2xx answer other than 204. *)
Theorem status_below_400_is_no_error :
  (forall status message details,
      status < 400 -> raise_for_status status message details = Return tt) /\
  (httpx.status_code response < 400 ->
   httpx.is_success response = false ->
   _request method path params json sent = (response_json response, (sent ++ [req])%list)) /\
  (httpx.is_success response = true ->
   httpx.status_code response <> 204 ->
   _request method path params json sent = (response_json response, (sent ++ [req])%list)).
Proof.
  assert (forall status message details,
             status < 400 -> raise_for_status status message details = Return tt)
    as Hlow.
  { intros status message details Hs. unfold raise_for_status.
    branches. reflexivity. }
  split; [exact Hlow | split].
  - intros Hs Hok. unfold _request. fold req. rewrite answered, Hok. simpl.
    destruct (failure_message response) as [m d].
    rewrite Hlow by assumption. simpl.
    destruct (Z.eqb_spec (httpx.status_code response) 204) as [E|]; [|reflexivity].
    unfold httpx.is_success in Hok. rewrite E in Hok. discriminate.
  - apply _request_success.
Qed.

End Request.

(** ** Message and details of a failing answer *)

Lemma existsb_key {A} (k : string) (d : list (string * A)) :
  existsb (String.eqb k) (keys d) = match lookup k d with Some _ => true | None => false end.
Proof.
  induction d as [|[k' v] d IH]; simpl; [reflexivity|].
  destruct (String.eqb k k'); [reflexivity | exact IH].
Qed.

Lemma failure_message_unparsed (response : httpx.Response) :
  httpx.json response = None ->
  failure_message response = (text_or response (JStr "Request failed"), JNull).
Proof.
  intros E. unfold failure_message, response_json. rewrite E. reflexivity.
Qed.

Lemma failure_message_unreadable (response : httpx.Response) (data : JSON) :
  httpx.json response = Some data ->
  message_unreadable data = true ->
  failure_message response = (text_or response (JStr "Request failed"), JNull).
Proof.
  intros E Hu. unfold failure_message, response_json. rewrite E.
  destruct data as [| | | |s|l|d]; simpl in Hu; try discriminate;
    unfold bind, py_contains, py_getitem; try reflexivity.
  - destruct (index 0 "message" s); [reflexivity | discriminate].
  - rewrite Hu. reflexivity.
Qed.

Lemma failure_message_readable (response : httpx.Response) (data : JSON) :
  httpx.json response = Some data ->
  message_unreadable data = false ->
  snd (failure_message response) = data.
Proof.
  intros E Hu. unfold failure_message, response_json. rewrite E.
  destruct data as [| | | |s|l|d]; simpl in Hu; try discriminate;
    unfold bind, py_contains, py_getitem.
  - destruct (index 0 "message" s); [discriminate | reflexivity].
  - rewrite Hu. reflexivity.
  - rewrite existsb_key. destruct (lookup "message" d); reflexivity.
Qed.

Lemma failure_message_object (response : httpx.Response) (d : list (string * JSON)) :
  httpx.json response = Some (JObj d) ->
  failure_message response
  = (match lookup "message" d with Some m => m | None => JStr "Request failed" end,
     JObj d).
Proof.
  intros E. unfold failure_message, response_json. rewrite E.
  unfold bind, py_contains, py_getitem.
  rewrite existsb_key. destruct (lookup "message" d); reflexivity.
Qed.

Lemma failure_message_readable_message (response : httpx.Response) (data : JSON) :
  httpx.json response = Some data ->
  message_unreadable data = false ->
  fst (failure_message response)
  = match data with
    | JObj d => match lookup "message" d with
                | Some m => m
                | None => JStr "Request failed"
                end
    | _ => JStr "Request failed"
    end.
Proof.
  intros E Hu. destruct data as [| | | |s|l|d]; simpl in Hu; try discriminate.
  - unfold failure_message, response_json. rewrite E.
    unfold bind, py_contains. destruct (index 0 "message" s); [discriminate | reflexivity].
  - unfold failure_message, response_json. rewrite E.
    unfold bind, py_contains. rewrite Hu. reflexivity.
  - rewrite (failure_message_object response d E). reflexivity.
Qed.

Section FailureMessage.

Context {H : httpx.Httpx}.
Variables (method path : string) (params : option (list (string * JSON)))
          (json : option JSON).
Variables (sent : list httpx.Request) (response : httpx.Response).

Hypothesis answered :
  httpx.request sent {| httpx.method := method; httpx.path := path;
                        httpx.params := params; httpx.json_body := json |}
  = Some response.

(** C10, amended: an answer with a status from 400 up raises an SDK error
    with that status.  When the body parses as a JSON object without a
    ["message"] key, the message is ["Request failed"] and the details are
    the whole parsed body.  The raw text is the message (["Request
    failed"] when the text is empty), with details [None], when parsing
    fails and also when the parsed body is one on which the message cannot
    be read: [None], a bool, a number, or a list or str containing
    ["message"].  On every other parsed body the details are that body and
    the message is the body's ["message"] entry or ["Request failed"]. *)
Theorem failure_message_of_raised_error :
  400 <= httpx.status_code response ->
  exists e,
    fst (_request method path params json sent) = Raise (Guts e) /\
    status_code e = httpx.status_code response /\
    (forall d, httpx.json response = Some (JObj d) ->
               lookup "message" d = None ->
               message e = JStr "Request failed" /\ details e = JObj d) /\
    (httpx.json response = None \/
     (exists data, httpx.json response = Some data /\ message_unreadable data = true) ->
     details e = JNull /\
     message e = match httpx.text response with
                 | EmptyString => JStr "Request failed"
                 | s => JStr s
                 end) /\
    (forall data, httpx.json response = Some data ->
                  message_unreadable data = false ->
                  details e = data /\
                  message e = match data with
                              | JObj d => match lookup "message" d with
                                          | Some m => m
                                          | None => JStr "Request failed"
                                          end
                              | _ => JStr "Request failed"
                              end).
Proof.
  intros Hs.
  destruct (_request_failure method path params json sent response answered Hs)
    as [c E].
  eexists. rewrite E. split; [reflexivity|]. simpl. split; [reflexivity|].
  split; [|split].
  - intros d Ej Hm. rewrite (failure_message_object response d Ej), Hm.
    split; reflexivity.
  - intros [Ej | [data [Ej Hu]]].
    + rewrite (failure_message_unparsed response Ej). split; reflexivity.
    + rewrite (failure_message_unreadable response data Ej Hu). split; reflexivity.
  - intros data Ej Hu. split.
    + apply failure_message_readable; assumption.
    + apply failure_message_readable_message; assumption.
Qed.

(** C8, as the code has it: a 429 answer raises [RateLimitError] with the
    message and details of the body and status 429, and its [retry_after]
    is [None] whatever the headers of the answer say. *)
Theorem rate_limit_hint_not_forwarded :
  httpx.status_code response = 429 ->
  fst (_request method path params json sent)
  = Raise (Guts (RateLimitError (fst (failure_message response)) None
                   (snd (failure_message response)))).
Proof.
  intros Hs. unfold _request. rewrite answered.
  unfold httpx.is_success. rewrite Hs. simpl.
  destruct (failure_message response) as [m d]. reflexivity.
Qed.

End FailureMessage.

Lemma status_below_400_is_no_error_witness :
  raise_for_status 302 (JStr "Found") JNull = Return tt /\
  @_request (fixtures.stub (fixtures.reply 302 "[]" (Some (JArr []))))
            "GET" "/api/user/orgs" None None []
  = (Return (JArr []),
     [{| httpx.method := "GET"; httpx.path := "/api/user/orgs";
         httpx.params := None; httpx.json_body := None |}]).
Proof.
  pose proof (@status_below_400_is_no_error
                (fixtures.stub (fixtures.reply 302 "[]" (Some (JArr []))))
                "GET" "/api/user/orgs" None None []
                (fixtures.reply 302 "[]" (Some (JArr []))) eq_refl) as [Hlow [Hreq _]].
  split.
  - apply Hlow. lia.
  - apply Hreq; [simpl; lia | reflexivity].
Defined.

Lemma failure_message_of_raised_error_witness :
  exists e,
    fst (@_request (fixtures.stub (fixtures.reply 500 EmptyString None))
                   "GET" "/api/user" None None []) = Raise (Guts e) /\
    message e = JStr "Request failed" /\ details e = JNull.
Proof.
  destruct (@failure_message_of_raised_error
              (fixtures.stub (fixtures.reply 500 EmptyString None))
              "GET" "/api/user" None None [] (fixtures.reply 500 EmptyString None) eq_refl)
    as [e [E [_ [_ [Hraw _]]]]].
  - simpl. lia.
  - exists e. split; [exact E|].
    destruct (Hraw (or_introl eq_refl)) as [Hd Hm]. split; assumption.
Defined.

(** C10 as stated fails: the body [null] parses, yet the message of the
    raised error is the raw text of the answer. *)
Lemma raw_text_message_on_parsed_body :
  httpx.json (fixtures.reply 500 "null" (Some JNull)) = Some JNull /\
  fst (@_request (fixtures.stub (fixtures.reply 500 "null" (Some JNull)))
                 "GET" "/api/user" None None [])
  = Raise (Guts (ServerError (JStr "null") 500 JNull)).
Proof.
  split; reflexivity.
Qed.

Lemma rate_limit_hint_not_forwarded_witness :
  fst (@_request (fixtures.stub fixtures.too_many_requests)
                 "GET" "/api/repos" None None [])
  = Raise (Guts (RateLimitError (JStr "slow down") None
                   (JObj [("message", JStr "slow down")]))) /\
  lookup "Retry-After" (httpx.headers fixtures.too_many_requests) = Some "30".
Proof.
  split.
  - apply (@rate_limit_hint_not_forwarded (fixtures.stub fixtures.too_many_requests)
             "GET" "/api/repos" None None [] fixtures.too_many_requests eq_refl).
    reflexivity.
  - reflexivity.
Defined.

(** ** Requests sent by the facades *)

Lemma lift_silent {A B} (f : A -> res B) : silent (fun a => lift (f a)).
Proof. intros a sent. reflexivity. Qed.

Lemma each_silent (m : model) : silent (each m).
Proof.
  intros data sent. unfold each, mbind, lift.
  destruct (py_iter data); reflexivity.
Qed.

Lemma each_item_silent (m : model) : silent (each_item m).
Proof.
  intros data sent. unfold each_item, mbind, lift at 1.
  destruct (py_get data "items" data); [apply each_silent | reflexivity].
Qed.

Lemma one_silent (m : model) : silent (one m).
Proof. intros data sent. reflexivity. Qed.

Lemma ret_silent {A B} (b : B) : silent (fun _ : A => ret b).
Proof. intros a sent. reflexivity. Qed.

Create HintDb facade.
#[local] Hint Resolve each_silent each_item_silent one_silent : facade.

Section Sent.

Context {H : httpx.Httpx}.

(** [_request] sends exactly its request, whether or not an answer comes
    back and whatever the answer is. *)
Lemma _request_log method path params json sent :
  snd (_request method path params json sent)
  = (sent ++ [{| httpx.method := method; httpx.path := path;
                 httpx.params := params; httpx.json_body := json |}])%list.
Proof.
  unfold _request. destruct (httpx.request sent _); reflexivity.
Qed.

Lemma mbind_silent {A B} (m : M A) (k : A -> M B) sent :
  silent k -> snd (mbind m k sent) = snd (m sent).
Proof.
  intros Hk. unfold mbind. destruct (m sent) as [[a|e] sent']; [apply Hk | reflexivity].
Qed.

Lemma _get_then {B} path params (k : JSON -> M B) sent :
  silent k ->
  snd (mbind (_get path params) k sent) = (sent ++ [GET path params])%list.
Proof.
  intros Hk. rewrite mbind_silent by assumption. apply _request_log.
Qed.

Lemma _post_then {B} path body (k : JSON -> M B) sent :
  silent k ->
  snd (mbind (_post path (Some body)) k sent) = (sent ++ [POST path body])%list.
Proof.
  intros Hk. rewrite mbind_silent by assumption. apply _request_log.
Qed.

Lemma _patch_then {B} path body (k : JSON -> M B) sent :
  silent k ->
  snd (mbind (_patch path (Some body)) k sent) = (sent ++ [PATCH path body])%list.
Proof.
  intros Hk. rewrite mbind_silent by assumption. apply _request_log.
Qed.

Context {P : Pydantic}.

(** C6: [issues.close] is [issues.update] with [state="closed"]: the same
    computation, hence the same result on every connection and after every
    history of requests, and the one request it sends is the PATCH of the
    issue with body [{"state": "closed"}].  Nothing in it looks at the
    state of the issue, so closing a closed issue sends that PATCH again.
    Likewise [issues.reopen] with ["open"] and [pulls.close] with
    ["closed"]. *)
Theorem close_is_update_with_state (owner repo : string) (number : Z)
    (sent : list httpx.Request) :
  (issues.close owner repo number sent
   = issues.update owner repo number [("state", JStr "closed")] sent /\
   snd (issues.close owner repo number sent)
   = (sent ++ [PATCH ("/api/repos/" ++ owner ++ "/" ++ repo ++ "/issues/" ++ str number)
                     (JObj [("state", JStr "closed")])])%list /\
   snd (issues.close owner repo number
          (snd (issues.close owner repo number sent)))
   = (sent ++ [PATCH ("/api/repos/" ++ owner ++ "/" ++ repo ++ "/issues/" ++ str number)
                     (JObj [("state", JStr "closed")]);
               PATCH ("/api/repos/" ++ owner ++ "/" ++ repo ++ "/issues/" ++ str number)
                     (JObj [("state", JStr "closed")])])%list) /\
  (issues.reopen owner repo number sent
   = issues.update owner repo number [("state", JStr "open")] sent /\
   snd (issues.reopen owner repo number sent)
   = (sent ++ [PATCH ("/api/repos/" ++ owner ++ "/" ++ repo ++ "/issues/" ++ str number)
                     (JObj [("state", JStr "open")])])%list) /\
  (pulls.close owner repo number sent
   = pulls.update owner repo number [("state", JStr "closed")] sent /\
   snd (pulls.close owner repo number sent)
   = (sent ++ [PATCH ("/api/repos/" ++ owner ++ "/" ++ repo ++ "/pulls/" ++ str number)
                     (JObj [("state", JStr "closed")])])%list).
Proof.
  assert (forall s,
             snd (issues.close owner repo number s)
             = (s ++ [PATCH ("/api/repos/" ++ owner ++ "/" ++ repo ++ "/issues/"
                             ++ str number)
                            (JObj [("state", JStr "closed")])])%list) as Hclose.
  { intros s. unfold issues.close, issues.update.
    apply _patch_then; auto with facade. }
  repeat split.
  - apply Hclose.
  - rewrite !Hclose, <- app_assoc. reflexivity.
  - unfold issues.reopen, issues.update. apply _patch_then; auto with facade.
  - unfold pulls.close, pulls.update. apply _patch_then; auto with facade.
Qed.


(** C4, as the code has it: [repos.create] and [labels.create] called
    without a description send ["description"] with the value null. *)
Theorem create_sends_null_description
    (owner repo name color : string) (private : option bool)
    (sent : list httpx.Request) :
  snd (repos.create name None private sent)
  = (sent ++ [POST "/api/repos"
                (JObj [("name", JStr name);
                       ("description", JNull);
                       ("private", JBool (match private with Some b => b | None => false end))])
             ])%list /\
  snd (labels.create owner repo name color None sent)
  = (sent ++ [POST ("/api/repos/" ++ owner ++ "/" ++ repo ++ "/labels")
                (JObj [("name", JStr name);
                       ("color", JStr color);
                       ("description", JNull)])])%list.
Proof.
  split.
  - unfold repos.create. cbv zeta. rewrite _post_then by auto with facade.
    destruct private; reflexivity.
  - unfold labels.create. rewrite _post_then by auto with facade. reflexivity.
Qed.

End Sent.

(** ** Bodies built from request models *)

Lemma dump_exclude_none (d : list (string * JSON)) :
  Forall (fun kv => snd kv <> JNull) (dump true d).
Proof.
  unfold dump. apply Forall_forall. intros [k v] Hin.
  apply filter_In in Hin. destruct Hin as [_ Hv].
  destruct v; simpl in *; congruence.
Qed.

Section RequestModels.

Context {H : httpx.Httpx} {P : Pydantic}.
Variables (owner repo : string) (number : Z) (sent : list httpx.Request).

(** A request that posts a JSON object none of whose values is null. *)
Let posts_without_null {A} (call : M A) (path : string) : Prop :=
  exists body,
    snd (call sent) = (sent ++ [POST path (JObj body)])%list /\
    Forall (fun kv => snd kv <> JNull) body.

(** The create operations that take a request model dump it with
    [exclude_none=True]: an unset field is left out of the body. *)
Lemma create_from_request_model_omits_none :
  (forall request,
      posts_without_null (issues.create owner repo request)
        ("/api/repos/" ++ owner ++ "/" ++ repo ++ "/issues")) /\
  (forall request,
      posts_without_null (pulls.create owner repo request)
        ("/api/repos/" ++ owner ++ "/" ++ repo ++ "/pulls")) /\
  (forall request,
      posts_without_null (pulls.create_review owner repo number request)
        ("/api/repos/" ++ owner ++ "/" ++ repo ++ "/pulls/" ++ str number ++ "/reviews")) /\
  (forall request,
      posts_without_null (releases.create owner repo request)
        ("/api/repos/" ++ owner ++ "/" ++ repo ++ "/releases")) /\
  (forall request,
      posts_without_null (webhooks.create owner repo request)
        ("/api/repos/" ++ owner ++ "/" ++ repo ++ "/hooks")).
Proof.
  unfold posts_without_null.
  repeat split; intros request; eexists; (split; [|apply dump_exclude_none]).
  - unfold issues.create. apply _post_then. auto with facade.
  - unfold pulls.create. apply _post_then. auto with facade.
  - unfold pulls.create_review. apply _post_then. auto with facade.
  - unfold releases.create. apply _post_then. auto with facade.
  - unfold webhooks.create. apply _post_then. auto with facade.
Qed.

End RequestModels.

(** ** Decoding lists *)

Lemma comprehension_Forall2 {A B} (f : A -> res B) (l : list A) (ys : list B) :
  comprehension f l = Return ys <-> Forall2 (fun x y => f x = Return y) l ys.
Proof.
  revert ys. induction l as [|x l IH]; intros ys; simpl.
  - split; intros E.
    + injection E as <-. constructor.
    + inversion E. reflexivity.
  - split; intros E.
    + destruct (f x) as [y|] eqn:Ex; [|discriminate].
      destruct (comprehension f l) as [ys'|]; [|discriminate].
      injection E as <-. constructor; [exact Ex | apply IH; reflexivity].
    + inversion E as [|x' y l' ys' Ex Hrest]; subst.
      rewrite Ex. apply IH in Hrest. rewrite Hrest. reflexivity.
Qed.

Lemma comprehension_length {A B} (f : A -> res B) (l : list A) (ys : list B) :
  comprehension f l = Return ys -> length ys = length l.
Proof.
  intros E. apply comprehension_Forall2 in E.
  induction E; simpl; congruence.
Qed.

Section Lists.

Context {H : httpx.Httpx} {P : Pydantic}.
Variables (sent : list httpx.Request) (response : httpx.Response).

(** The connection answers the next request, whichever it is, with
    [response]: a 2xx answer with a body. *)
Hypothesis answered : forall req, httpx.request sent req = Some response.
Hypothesis success : httpx.is_success response = true.
Hypothesis has_body : httpx.status_code response <> 204.

Lemma _get_then_answered {B} path params (k : JSON -> M B) :
  fst (mbind (_get path params) k sent)
  = match httpx.json response with
    | Some data => fst (k data (sent ++ [GET path params])%list)
    | None => Raise JSONDecodeError
    end.
Proof.
  unfold mbind, _get.
  rewrite (_request_success "GET" path params None sent response
             (answered _) success has_body).
  unfold response_json. destruct (httpx.json response); reflexivity.
Qed.

Lemma each_item_array (m : model) (l : list JSON) s :
  fst (each_item m (JArr l) s) = Raise AttributeError.
Proof. reflexivity. Qed.

Lemma each_array (m : model) (l : list JSON) s :
  fst (each m (JArr l) s) = comprehension (construct m) l.
Proof. reflexivity. Qed.

Lemma each_item_envelope (m : model) (d : list (string * JSON)) (l : list JSON) s :
  lookup "items" d = Some (JArr l) ->
  fst (each_item m (JObj d) s) = comprehension (construct m) l.
Proof.
  intros E. unfold each_item, mbind, lift at 1, py_get. rewrite E. reflexivity.
Qed.

(** C2, as the code has it: on a body that is a bare array the three
    paginated list operations raise [AttributeError], because they call
    [data.get] on a list. *)
Theorem paginated_lists_raise_on_bare_array
    (owner repo : string) (state : option string) (page per_page : option Z)
    (l : list JSON) :
  httpx.json response = Some (JArr l) ->
  fst (repos.list page per_page sent) = Raise AttributeError /\
  fst (issues.list owner repo state page per_page sent) = Raise AttributeError /\
  fst (pulls.list owner repo state page per_page sent) = Raise AttributeError.
Proof.
  intros E.
  unfold repos.list, issues.list, pulls.list. cbv zeta.
  rewrite !_get_then_answered, E.
  repeat split; apply each_item_array.
Qed.

(** The list operations that iterate over the payload itself decode a bare
    array element by element, in order. *)
Lemma direct_lists_decode_bare_array
    (owner repo org : string) (number : Z) (limit : option Z) (l : list JSON) :
  httpx.json response = Some (JArr l) ->
  fst (releases.list owner repo sent) = comprehension (construct Release) l /\
  fst (labels.list owner repo sent) = comprehension (construct Label) l /\
  fst (webhooks.list owner repo sent) = comprehension (construct Webhook) l /\
  fst (orgs.list sent) = comprehension (construct Organization) l /\
  fst (orgs.list_teams org sent) = comprehension (construct Team) l /\
  fst (consensus.list_blocks limit sent) = comprehension (construct Block) l /\
  fst (consensus.list_validators sent) = comprehension (construct Validator) l /\
  fst (issues.list_comments owner repo number sent) = comprehension (construct Comment) l /\
  fst (pulls.list_reviews owner repo number sent) = comprehension (construct Review) l.
Proof.
  intros E.
  unfold releases.list, labels.list, webhooks.list, orgs.list, orgs.list_teams,
    consensus.list_blocks, consensus.list_validators, issues.list_comments,
    pulls.list_reviews.
  cbv zeta. rewrite !_get_then_answered, E.
  repeat split.
Qed.

Lemma each_object (m : model) (d : list (string * JSON)) s :
  fst (each m (JObj d) s)
  = match d with
    | [] => Return []
    | _ :: _ => Raise TypeError
    end.
Proof.
  destruct d as [|[k v] d]; reflexivity.
Qed.

(** The nine list methods that iterate over the payload, each with the
    model of its records. *)
Let direct_lists (owner repo org : string) (number : Z) (limit : option Z)
  : list (res (list value) * model) :=
  [(fst (releases.list owner repo sent), Release);
   (fst (labels.list owner repo sent), Label);
   (fst (webhooks.list owner repo sent), Webhook);
   (fst (orgs.list sent), Organization);
   (fst (orgs.list_teams org sent), Team);
   (fst (consensus.list_blocks limit sent), Block);
   (fst (consensus.list_validators sent), Validator);
   (fst (issues.list_comments owner repo number sent), Comment);
   (fst (pulls.list_reviews owner repo number sent), Review)].

(** C3, amended: on an envelope [{"items": [...]}], with or without sibling
    keys, [repos.list], [issues.list] and [pulls.list] return the elements
    of ["items"] decoded one by one, in order: the list of the decoded
    records when every element decodes.  The nine other list methods do
    not look for ["items"]: they iterate over the payload itself.  On a
    body that is an object they iterate over its keys, whatever the keys
    are, so they raise [TypeError] on every envelope (and return the empty
    list on the empty object); on a bare array they decode its elements
    one by one, in order. *)
Theorem paginated_lists_decode_envelope
    (owner repo org : string) (number : Z) (state : option string)
    (limit page per_page : option Z) :
  (forall d l,
      httpx.json response = Some (JObj d) ->
      lookup "items" d = Some (JArr l) ->
      (fst (repos.list page per_page sent) = comprehension (construct Repository) l /\
       fst (issues.list owner repo state page per_page sent)
       = comprehension (construct Issue) l /\
       fst (pulls.list owner repo state page per_page sent)
       = comprehension (construct PullRequest) l) /\
      (forall records,
          Forall2 (fun item record => construct Repository item = Return record)
            l records ->
          fst (repos.list page per_page sent) = Return records) /\
      (forall records,
          Forall2 (fun item record => construct Issue item = Return record) l records ->
          fst (issues.list owner repo state page per_page sent) = Return records) /\
      (forall records,
          Forall2 (fun item record => construct PullRequest item = Return record)
            l records ->
          fst (pulls.list owner repo state page per_page sent) = Return records) /\
      Forall (fun list_model => fst list_model = Raise TypeError)
        (direct_lists owner repo org number limit)) /\
  (forall d,
      httpx.json response = Some (JObj d) ->
      Forall (fun list_model =>
                fst list_model = match d with
                                 | [] => Return []
                                 | _ :: _ => Raise TypeError
                                 end)
        (direct_lists owner repo org number limit)) /\
  (forall l,
      httpx.json response = Some (JArr l) ->
      Forall (fun list_model =>
                fst list_model = comprehension (construct (snd list_model)) l /\
                forall records,
                  fst list_model = Return records <->
                  Forall2 (fun item record =>
                             construct (snd list_model) item = Return record)
                    l records)
        (direct_lists owner repo org number limit)).
Proof.
  assert (forall d,
             httpx.json response = Some (JObj d) ->
             Forall (fun list_model =>
                       fst list_model = match d with
                                        | [] => Return []
                                        | _ :: _ => Raise TypeError
                                        end)
               (direct_lists owner repo org number limit)) as Hobject.
  { intros d E. unfold direct_lists.
    unfold releases.list, labels.list, webhooks.list, orgs.list, orgs.list_teams,
      consensus.list_blocks, consensus.list_validators, issues.list_comments,
      pulls.list_reviews.
    cbv zeta. rewrite !_get_then_answered, E.
    repeat (constructor; [apply each_object|]). constructor. }
  split; [|split; [exact Hobject|]].
  - intros d l E Hitems.
    assert (fst (repos.list page per_page sent) = comprehension (construct Repository) l /\
            fst (issues.list owner repo state page per_page sent)
            = comprehension (construct Issue) l /\
            fst (pulls.list owner repo state page per_page sent)
            = comprehension (construct PullRequest) l) as [Hr [Hi Hp]].
    { unfold repos.list, issues.list, pulls.list. cbv zeta.
      rewrite !_get_then_answered, E.
      repeat split; apply each_item_envelope; exact Hitems. }
    rewrite Hr, Hi, Hp.
    split; [repeat split|].
    repeat match goal with |- _ /\ _ => split end;
      try (intros records Hall; apply comprehension_Forall2; exact Hall).
    specialize (Hobject d E).
    destruct d as [|kv d]; [discriminate Hitems | exact Hobject].
  - intros l E.
    destruct (direct_lists_decode_bare_array owner repo org number limit l E)
      as (H1 & H2 & H3 & H4 & H5 & H6 & H7 & H8 & H9).
    unfold direct_lists.
    repeat (constructor;
            [cbn [fst snd]; split;
             [assumption
             | intros records;
               first [rewrite H1 | rewrite H2 | rewrite H3 | rewrite H4 | rewrite H5
                     | rewrite H6 | rewrite H7 | rewrite H8 | rewrite H9];
               apply comprehension_Forall2]|]).
    constructor.
Qed.

End Lists.

(** ** Decoding with the optional fields absent *)

Lemma lookup_In {A} (k : string) (v : A) (l : list (string * A)) :
  NoDup (keys l) -> In (k, v) l -> lookup k l = Some v.
Proof.
  induction l as [|[k' v'] l IH]; simpl; intros Hnd Hin; [contradiction|].
  inversion Hnd as [|? ? Hnotin Hnd']; subst.
  destruct Hin as [E | Hin].
  - injection E as -> ->. rewrite String.eqb_refl. reflexivity.
  - destruct (String.eqb_spec k k') as [->|_].
    + exfalso. apply Hnotin. apply (in_map fst) in Hin. exact Hin.
    + apply IH; assumption.
Qed.

Lemma validate_fields_only_required (fs : list field) (kwargs : list (string * JSON)) :
  only_required_of fs kwargs ->
  exists attrs,
    validate_fields fs kwargs = Some attrs /\
    keys attrs = map fname fs /\
    (forall f d, In f fs -> fdefault f = Some d -> In (fname f, d) attrs).
Proof.
  unfold only_required_of. induction 1 as [|f fs Hf _ IH]; simpl.
  - exists []. repeat split. intros f d [].
  - destruct IH as [attrs [E [Hk Hd]]].
    unfold validate_field. rewrite E.
    destruct (fdefault f) as [d0|] eqn:Ed.
    + rewrite Hf. exists ((fname f, d0) :: attrs).
      split; [reflexivity|]. split; [simpl; congruence|].
      intros f' d [<- | Hin] Ed'.
      * left. congruence.
      * right. apply Hd; assumption.
    + destruct Hf as [j [v [-> ->]]]. exists ((fname f, v) :: attrs).
      split; [reflexivity|]. split; [simpl; congruence|].
      intros f' d [<- | Hin] Ed'.
      * congruence.
      * right. apply Hd; assumption.
Qed.

(** A model whose field names are distinct, built from its required fields
    alone, has every other attribute at its default. *)
Lemma construct_only_required (m : model) (kwargs : list (string * JSON)) :
  NoDup (map fname (model_fields m)) ->
  only_required m kwargs ->
  exists inst,
    construct m (JObj kwargs) = Return inst /\
    (forall name d, default_of m name = Some d -> getattr inst name = Some d).
Proof.
  intros Hnd Hreq.
  destruct (validate_fields_only_required _ _ Hreq) as [attrs [E [Hk Hd]]].
  exists (VModel (model_name m) attrs). split.
  - unfold construct, validate. rewrite E. reflexivity.
  - intros name d Hdef. unfold default_of in Hdef.
    destruct (find _ (model_fields m)) as [f|] eqn:Ef; [|discriminate].
    apply find_some in Ef. destruct Ef as [Hin Hname].
    apply String.eqb_eq in Hname. subst name. simpl.
    apply lookup_In; [rewrite Hk; exact Hnd | apply Hd; assumption].
Qed.

Ltac distinct_names :=
  repeat (constructor; [simpl; intuition discriminate|]); constructor.

Lemma entities_distinct_fields {P : Pydantic} :
  Forall (fun m => NoDup (map fname (model_fields m))) entities.
Proof.
  unfold entities.
  repeat (constructor; [simpl; distinct_names|]). constructor.
Qed.

Section Defaults.

Context {H : httpx.Httpx} {P : Pydantic} {L : PydanticLaws P}.

(** C7: a body that supplies only the required fields of an entity decodes,
    and every field that has a default takes it.  [repos.get("alice",
    "demo")] on the body with [key], [name], [owner], [clone_url],
    [html_url], [created_at] and [updated_at] returns a Repository with
    [private = False] and [default_branch = "main"]; the same holds for
    every entity of the module, with [draft = False], [private = False],
    [active = True] and [labels = []] among the defaults. *)
Theorem required_fields_suffice :
  (forall sent response timestamp,
      httpx.request sent (GET "/api/repos/alice/demo" None) = Some response ->
      httpx.status_code response = 200 ->
      httpx.json response = Some fixtures.alice_demo ->
      coerce Tdatetime (JStr "2024-01-01T00:00:00Z") = Some timestamp ->
      exists repository,
        fst (repos.get "alice" "demo" sent) = Return repository /\
        getattr repository "private" = Some (VBool false) /\
        getattr repository "default_branch" = Some (VStr "main")) /\
  (forall m kwargs,
      In m entities ->
      only_required m kwargs ->
      exists inst,
        construct m (JObj kwargs) = Return inst /\
        (forall name d, default_of m name = Some d -> getattr inst name = Some d)) /\
  (default_of Repository "private" = Some (VBool false) /\
   default_of Repository "default_branch" = Some (VStr "main") /\
   default_of PullRequest "draft" = Some (VBool false) /\
   default_of Release "draft" = Some (VBool false) /\
   default_of Webhook "active" = Some (VBool true) /\
   default_of Issue "labels" = Some (VList []) /\
   default_of PullRequest "labels" = Some (VList [])).
Proof.
  assert (forall m kwargs,
             In m entities ->
             only_required m kwargs ->
             exists inst,
               construct m (JObj kwargs) = Return inst /\
               (forall name d, default_of m name = Some d -> getattr inst name = Some d))
    as Hall.
  { intros m kwargs Hin Hreq. apply construct_only_required; [|exact Hreq].
    pose proof entities_distinct_fields as Hnd.
    rewrite Forall_forall in Hnd. apply Hnd. exact Hin. }
  split; [|split; [exact Hall | repeat split]].
  intros sent response timestamp Hans Hstatus Hbody Htime.
  unfold repos.get, mbind, _get.
  change ("/api/repos/" ++ "alice" ++ "/" ++ "demo") with "/api/repos/alice/demo".
  rewrite (_request_success "GET" "/api/repos/alice/demo" None None sent response Hans).
  2: { unfold httpx.is_success. rewrite Hstatus. reflexivity. }
  2: { rewrite Hstatus. discriminate. }
  unfold response_json. rewrite Hbody. unfold fixtures.alice_demo, one, lift, fst.
  destruct (Hall Repository
              [("key", JStr "alice/demo"); ("name", JStr "demo"); ("owner", JStr "alice");
               ("clone_url", JStr "https://x/demo.git");
               ("html_url", JStr "https://x/alice/demo");
               ("created_at", JStr "2024-01-01T00:00:00Z");
               ("updated_at", JStr "2024-01-01T00:00:00Z")])
    as [repository [E Hdefaults]].
  - simpl. tauto.
  - unfold only_required, only_required_of, Repository, model_fields.
    repeat (constructor;
            [simpl; first [reflexivity
                          | eexists; eexists; split; [reflexivity|];
                            first [apply coerce_str | exact Htime]]|]).
    constructor.
  - exists repository. split; [exact E|].
    split; apply Hdefaults; reflexivity.
Qed.

End Defaults.

Lemma json_types_laws : PydanticLaws fixtures.json_types.
Proof.
  split; intros; reflexivity.
Qed.

Lemma required_fields_suffice_witness :
  exists repository,
    fst (@repos.get (fixtures.stub fixtures.one_repository)
                    fixtures.json_types "alice" "demo" [])
    = Return repository /\
    getattr repository "private" = Some (VBool false) /\
    getattr repository "default_branch" = Some (VStr "main").
Proof.
  destruct (@required_fields_suffice
              (fixtures.stub fixtures.one_repository)
              fixtures.json_types json_types_laws) as [Hscenario _].
  apply (Hscenario [] fixtures.one_repository
           (VDatetime {| year := 2024; month := 1; day := 1;
                         hour := 0; minute := 0; second := 0; microsecond := 0;
                         tzoffset := Some 0 |}));
    reflexivity.
Defined.

(** ** The list operations on the two shapes of answer *)

Lemma paginated_lists_raise_on_bare_array_witness :
  fst (@repos.list (fixtures.stub fixtures.bare_array) fixtures.json_types
         None None [])
  = Raise AttributeError.
Proof.
  apply (@paginated_lists_raise_on_bare_array
           (fixtures.stub fixtures.bare_array) fixtures.json_types
           [] fixtures.bare_array (fun _ => eq_refl) eq_refl
           ltac:(discriminate) "alice" "demo" None None None [fixtures.alice_demo]).
  reflexivity.
Defined.

Lemma paginated_lists_decode_envelope_witness :
  exists repository,
    fst (@repos.list (fixtures.stub fixtures.repository_envelope) fixtures.json_types
           None None [])
    = Return [repository] /\
    getattr repository "name" = Some (VStr "demo").
Proof.
  eexists. split.
  - destruct (@paginated_lists_decode_envelope
                (fixtures.stub fixtures.repository_envelope) fixtures.json_types
                [] fixtures.repository_envelope (fun _ => eq_refl) eq_refl
                ltac:(discriminate) "alice" "demo" "org" 1 None None None None)
      as [Henvelope _].
    apply (Henvelope [("items", JArr [fixtures.alice_demo]); ("total", JInt 1)]
             [fixtures.alice_demo] eq_refl eq_refl).
    constructor; [reflexivity | constructor].
  - reflexivity.
Defined.

(** C3 as stated fails: [labels.list] iterates over the envelope itself,
    that is over its keys, and unpacking the key ["items"] into [Label]
    raises [TypeError]; the label inside is not returned. *)
Lemma labels_list_raises_on_envelope :
  lookup "items" [("items", JArr [JObj [("name", JStr "bug"); ("color", JStr "d73a4a")]]);
                  ("total", JInt 1)]
  = Some (JArr [JObj [("name", JStr "bug"); ("color", JStr "d73a4a")]]) /\
  construct (@Label fixtures.json_types)
    (JObj [("name", JStr "bug"); ("color", JStr "d73a4a")])
  = Return (VModel "Label" [("name", VStr "bug"); ("color", VStr "d73a4a");
                            ("description", VNone)]) /\
  fst (@labels.list (fixtures.stub fixtures.label_envelope) fixtures.json_types
         "alice" "demo" [])
  = Raise TypeError.
Proof.
  repeat split.
Qed.


(** ** Scenarios *)

(** [issues.get("a", "b", 99)] answered 404 with a message. *)
Example issues_get_not_found :
  fst (@issues.get (fixtures.stub fixtures.issue_not_found) fixtures.json_types
         "a" "b" 99 [])
  = Raise (Guts (NotFoundError (JStr "issue not found")
                   (JObj [("message", JStr "issue not found")]))).
Proof. reflexivity. Qed.

(** [pulls.merge("a", "b", 5, method="squash")] answered 204. *)
Example pulls_merge_squash :
  @pulls.merge (fixtures.stub (fixtures.reply 204 EmptyString None)) "a" "b" 5 (Some "squash") []
  = (Return tt,
     [POST "/api/repos/a/b/pulls/5/merge" (JObj [("merge_method", JStr "squash")])]).
Proof. reflexivity. Qed.

(** Closing an issue that the server already reports as closed: the PATCH
    is sent again and the issue comes back. *)
Example close_closed_issue :
  exists issue,
    @issues.close (fixtures.stub fixtures.closed_issue) fixtures.json_types
      "alice" "demo" 7
      [PATCH "/api/repos/alice/demo/issues/7" (JObj [("state", JStr "closed")])]
    = (Return issue,
       [PATCH "/api/repos/alice/demo/issues/7" (JObj [("state", JStr "closed")]);
        PATCH "/api/repos/alice/demo/issues/7" (JObj [("state", JStr "closed")])]) /\
    getattr issue "state" = Some (VEnum "closed").
Proof. eexists. split; reflexivity. Qed.

(** * Further properties *)

(** ** Errors *)

(** X1: [raise_for_status] returns normally exactly below 400.  What it
    raises is always an SDK error whose status is the status given, with
    the message and details given; the error has a [retry_after] attribute
    exactly for 429 (and it is [None]), and is a [ServerError] exactly from
    500 up. *)
Theorem raise_for_status_outcome (status : Z) (message details : JSON) :
  (raise_for_status status message details = Return tt <-> status < 400) /\
  (forall x,
      raise_for_status status message details = Raise x ->
      exists e,
        x = Guts e /\
        status_code e = status /\
        exceptions.message e = message /\
        exceptions.details e = details /\
        (retry_after e = Some None <-> status = 429) /\
        (retry_after e = None <-> status <> 429) /\
        (cls e = cServerError <-> 500 <= status)).
Proof.
  split.
  - unfold raise_for_status. split; intros E.
    + revert E. branches; discriminate.
    + branches. reflexivity.
  - intros x. unfold raise_for_status.
    branches; intros E; try discriminate; injection E as <-;
      eexists; (split; [reflexivity|]); subst; simpl;
      repeat split; intros; try lia; try discriminate; try reflexivity;
      try congruence.
Qed.

Lemma raise_for_status_outcome_witness :
  exists e,
    raise_for_status 429 (JStr "slow down") JNull = Raise (Guts e) /\
    status_code e = 429 /\ retry_after e = Some None.
Proof.
  destruct (raise_for_status_outcome 429 (JStr "slow down") JNull) as [_ Hraise].
  destruct (Hraise _ eq_refl) as [e [E [Hs [_ [_ [Hr _]]]]]].
  exists e. split; [rewrite <- E; reflexivity|].
  split; [exact Hs | apply Hr; reflexivity].
Defined.

Section StringForm.

Context {B : Builtins}.

(** X2: the string form of an error.  An error raised by
    [raise_for_status] for a str message reads ["[<status>] <message>"],
    with the status in decimal.  An error whose status is 0 returns its
    message itself: its string form is the message when that is a str, and
    taking it raises [TypeError] when the message is anything else. *)
Theorem str_of_raised_error (status : Z) (text : string) (details : JSON)
    (e : GutsError) :
  (raise_for_status status (JStr text) details = Raise (Guts e) ->
   __str__ e = Return ("[" ++ str status ++ "] " ++ text)) /\
  (status_code e = 0 ->
   (forall s, message e = JStr s -> __str__ e = Return s) /\
   ((forall s, message e <> JStr s) -> __str__ e = Raise TypeError)).
Proof.
  split.
  - unfold raise_for_status.
    branches; intros E; try discriminate; injection E as <-;
      unfold __str__; simpl; subst;
      try reflexivity;
      (destruct (Z.eqb_spec status 0); [lia | reflexivity]).
  - intros Hs. unfold __str__. rewrite Hs. simpl. split.
    + intros s ->. reflexivity.
    + intros Hm. destruct (message e); try reflexivity.
      exfalso. eapply Hm. reflexivity.
Qed.

End StringForm.

Lemma str_of_raised_error_witness :
  @__str__ no_repr (NotFoundError (JStr "issue not found") JNull)
  = Return "[404] issue not found" /\
  @__str__ no_repr (GutsError_ (JObj [("code", JInt 7)]) 0 JNull) = Raise TypeError.
Proof.
  split.
  - apply (proj1 (@str_of_raised_error no_repr 404 "issue not found" JNull
                    (NotFoundError (JStr "issue not found") JNull))).
    reflexivity.
  - apply (proj2 (@str_of_raised_error no_repr 0 EmptyString JNull
                    (GutsError_ (JObj [("code", JInt 7)]) 0 JNull)) eq_refl).
    intros s. discriminate.
Defined.

(** ** Client configuration *)

Lemma rstrip_not_trailing (c : ascii) (s s' : string) :
  rstrip c s <> s' ++ String c EmptyString.
Proof.
  revert s'. induction s as [|a s IH]; intros s'; simpl.
  - destruct s'; discriminate.
  - destruct (rstrip c s) as [|b r] eqn:Er.
    + destruct (Ascii.eqb_spec a c) as [->|Hne].
      * destruct s'; discriminate.
      * destruct s' as [|x s'']; simpl; [congruence|].
        destruct s''; discriminate.
    + destruct s' as [|x s'']; simpl; [discriminate|].
      intros E. injection E as _ E. exact (IH _ E).
Qed.

Lemma rstrip_trailing (c : ascii) (s : string) :
  rstrip c (s ++ String c EmptyString) = rstrip c s.
Proof.
  induction s as [|a s IH]; simpl.
  - rewrite Ascii.eqb_refl. reflexivity.
  - rewrite IH. reflexivity.
Qed.

Lemma rstrip_split (c : ascii) (s : string) :
  exists n, s = rstrip c s ++ replicate n c.
Proof.
  induction s as [|a s [n IH]]; simpl.
  - exists O. reflexivity.
  - destruct (rstrip c s) as [|b r] eqn:Er.
    + simpl in IH. destruct (Ascii.eqb_spec a c) as [->|Hne].
      * exists (S n). simpl. f_equal. exact IH.
      * exists n. simpl. f_equal. exact IH.
    + exists n. simpl. f_equal. exact IH.
Qed.

(** X3: the base URL kept by the client is the one given without its
    trailing slashes: it never ends with a slash, the given URL is it
    followed by slashes only, and one more trailing slash on the argument
    changes nothing.  The token is kept as given. *)
Theorem base_url_without_trailing_slash (url : string) (tok : option string) :
  (forall s, base_url (__init__ (Some url) tok) <> s ++ "/") /\
  (exists n, url = base_url (__init__ (Some url) tok) ++ replicate n "/"%char) /\
  __init__ (Some (url ++ "/")) tok = __init__ (Some url) tok /\
  token (__init__ (Some url) tok) = tok.
Proof.
  unfold __init__, arg. simpl. repeat split.
  - intros s. apply rstrip_not_trailing.
  - apply rstrip_split.
  - f_equal. apply rstrip_trailing.
Qed.

(** X4: the headers of a client.  [Accept], [Content-Type] and
    [User-Agent] are always set; [Authorization] is set exactly when the
    token is a non-empty string, to ["Bearer "] followed by the token, so
    an empty token gives the headers of no token. *)
Theorem authorization_header (url tok : option string) :
  lookup "Accept" (_build_headers (__init__ url tok)) = Some "application/json" /\
  lookup "Content-Type" (_build_headers (__init__ url tok)) = Some "application/json" /\
  lookup "User-Agent" (_build_headers (__init__ url tok)) = Some "guts-python/0.1.0" /\
  lookup "Authorization" (_build_headers (__init__ url tok))
  = match tok with
    | Some (String a t) => Some ("Bearer " ++ String a t)
    | _ => None
    end /\
  _build_headers (__init__ url (Some EmptyString)) = _build_headers (__init__ url None).
Proof.
  destruct tok as [[|a t]|]; repeat split.
Qed.

(** ** One request per call *)

Lemma void_log {A} (m : M A) sent : snd (void m sent) = snd (m sent).
Proof.
  unfold void. apply mbind_silent. apply ret_silent.
Qed.

Lemma void_raise {A} (m : M A) sent e : fst (m sent) = Raise e -> fst (void m sent) = Raise e.
Proof.
  unfold void, mbind. destruct (m sent) as [[a|e'] sent']; simpl; congruence.
Qed.

Lemma void_return {A} (m : M A) sent a : fst (m sent) = Return a -> fst (void m sent) = Return tt.
Proof.
  unfold void, mbind. destruct (m sent) as [[a'|e'] sent']; simpl; [reflexivity | discriminate].
Qed.

Lemma _delete_log {H : httpx.Httpx} path sent :
  snd (_delete path sent) = (sent ++ [DELETE path])%list.
Proof.
  unfold _delete. rewrite mbind_silent by apply ret_silent. apply _request_log.
Qed.

(** The keyword [state] of [close] and [reopen] names no parameter. *)
Lemma state_keyword (parameters : list string) (v : JSON) :
  existsb (String.eqb "state") parameters = false ->
  colliding parameters [("state", v)] = false.
Proof.
  intros E. unfold colliding, keys. cbn [map fst existsb]. rewrite E. reflexivity.
Qed.

(** Unfold a facade method down to its call of a verb of the transport. *)
Ltac facade :=
  unfold repos.list, repos.get, repos.create, repos.update, repos.delete,
    issues.list, issues.get, issues.create, issues.close, issues.reopen,
    issues.list_comments, issues.create_comment,
    pulls.list, pulls.get, pulls.create, pulls.close, pulls.merge,
    pulls.list_reviews, pulls.create_review,
    releases.list, releases.get, releases.get_latest, releases.create, releases.delete,
    labels.list, labels.create, labels.delete,
    users.me, users.get,
    orgs.list, orgs.get, orgs.list_teams, orgs.get_team,
    webhooks.list, webhooks.create, webhooks.delete,
    consensus.status, consensus.list_blocks, consensus.get_block,
    consensus.list_validators;
  unfold issues.update, pulls.update;
  cbv zeta.

(** X5: every method of every facade sends exactly one request, the one
    of the table [request_of], whatever the connection answers, also when
    it answers with an error or not at all: nothing is retried and nothing
    else is sent, and the request does not depend on earlier requests.  The
    one exception is an update called with a keyword that names a parameter
    of the method: Python rejects the call and nothing is sent. *)
Theorem one_request_per_call {H : httpx.Httpx} {P : Pydantic}
    (c : call) (sent : list httpx.Request) :
  snd (perform c sent)
  = if rejected c then sent else (sent ++ [request_of c])%list.
Proof.
  destruct c; unfold perform; rewrite void_log; facade; unfold keywords;
    cbn [rejected];
    rewrite ?state_keyword by reflexivity;
    try match goal with
      | |- context [colliding ?p ?k] => destruct (colliding p k); [reflexivity|]
      end;
    first [ rewrite _get_then by auto with facade
          | rewrite _post_then by (auto with facade; apply ret_silent)
          | rewrite _patch_then by auto with facade
          | rewrite _delete_log ];
    unfold request_of, page_query, arg;
    repeat match goal with
      | x : option _ |- _ => destruct x
      end;
    reflexivity.
Qed.

(** ** The answer decides the outcome *)

Section Answered.

Context {H : httpx.Httpx} {P : Pydantic}.
Variables (sent : list httpx.Request) (response : httpx.Response).

(** The connection answers the next request, whichever it is, with
    [response]. *)
Hypothesis answered : forall req, httpx.request sent req = Some response.

Lemma _request_raised method path params json x :
  httpx.is_success response = false ->
  raise_for_status (httpx.status_code response)
    (fst (failure_message response)) (snd (failure_message response)) = Raise x ->
  fst (_request method path params json sent) = Raise x.
Proof.
  intros Hfail Hraise. unfold _request. rewrite answered, Hfail. simpl.
  destruct (failure_message response) as [m d]. simpl in Hraise.
  rewrite Hraise. reflexivity.
Qed.

Lemma _request_no_content method path params json :
  httpx.status_code response = 204 ->
  fst (_request method path params json sent) = Return JNull.
Proof.
  intros Hs. unfold _request. rewrite answered.
  unfold httpx.is_success. rewrite Hs. reflexivity.
Qed.

Lemma mbind_raised {A B} (m : M A) (k : A -> M B) s e :
  fst (m s) = Raise e -> fst (mbind m k s) = Raise e.
Proof.
  unfold mbind. destruct (m s) as [[a|e'] s']; simpl; congruence.
Qed.

Lemma mbind_returned {A B} (m : M A) (k : A -> M B) s a :
  fst (m s) = Return a -> fst (mbind m k s) = fst (k a (snd (m s))).
Proof.
  unfold mbind. destruct (m s) as [[a'|e'] s']; simpl; [|discriminate].
  intros E. injection E as ->. reflexivity.
Qed.

(** X6: on an answer with a status from 400 up every method of every
    facade raises the same SDK error, the one of the transport, with the
    status, message and details of the answer: no facade catches it,
    changes it or tries to decode the body.  An update called with a
    keyword that names a parameter of the method raises [TypeError]
    instead, before anything is sent. *)
Theorem errors_propagate_unchanged :
  400 <= httpx.status_code response ->
  exists e,
    status_code e = httpx.status_code response /\
    message e = fst (failure_message response) /\
    details e = snd (failure_message response) /\
    forall c,
      fst (perform c sent) = if rejected c then Raise TypeError else Raise (Guts e).
Proof.
  intros Hs.
  destruct (raise_for_status_error (httpx.status_code response)
              (fst (failure_message response)) (snd (failure_message response)) Hs)
    as [cl Hraise].
  assert (httpx.is_success response = false) as Hfail.
  { unfold httpx.is_success. branches; reflexivity. }
  exists (mkGutsError cl (fst (failure_message response))
            (httpx.status_code response) (snd (failure_message response))).
  split; [reflexivity|]. split; [reflexivity|]. split; [reflexivity|].
  intros c. destruct c; cbn [rejected]; unfold perform;
    try match goal with
      | |- context [colliding ?p ?k] => destruct (colliding p k) eqn:Hk
      end;
    apply void_raise; facade; unfold keywords; rewrite ?Hk; try reflexivity;
    unfold _delete, _get, _post, _patch;
    repeat apply mbind_raised;
    apply _request_raised; assumption.
Qed.

(** X7: on a 204 answer, which has no body, the deletions and
    [pulls.merge] return [None]; every method that builds a record from
    the body raises [TypeError], as do the list methods that iterate over
    the body; the three paginated list methods raise [AttributeError]. *)
Theorem no_content_answer (c : call) :
  httpx.status_code response = 204 ->
  fst (perform c sent)
  = if returns_nothing c then Return tt
    else if paginated c then Raise AttributeError
    else Raise TypeError.
Proof.
  intros Hs.
  destruct c; simpl; unfold perform;
    first [ apply void_return with (a := tt) | apply void_raise ]; facade;
    unfold keywords;
    try match goal with
      | |- context [colliding ?p ?k] => destruct (colliding p k); [reflexivity|]
      end;
    unfold _delete, _get, _post, _patch;
    repeat (erewrite mbind_returned by (apply _request_no_content; exact Hs));
    reflexivity.
Qed.

(** X8: the deletions and [pulls.merge] on a 2xx answer.  On 204 they
    return [None] without looking at the body; on any other 2xx status
    they return [None] if the body is JSON and raise the decoding error if
    it is not, for instance on an empty body. *)
Theorem returns_nothing_on_success (c : call) :
  returns_nothing c = true ->
  httpx.is_success response = true ->
  fst (perform c sent)
  = if httpx.status_code response =? 204 then Return tt
    else match httpx.json response with
         | Some _ => Return tt
         | None => Raise JSONDecodeError
         end.
Proof.
  intros Hc Hok.
  destruct c; try discriminate Hc; unfold perform, void; facade;
    unfold _delete, _post, mbind, _request; rewrite answered, Hok; simpl;
    destruct (httpx.status_code response =? 204); simpl; try reflexivity;
    unfold response_json; destruct (httpx.json response); reflexivity.
Qed.

End Answered.

Lemma errors_propagate_unchanged_witness :
  fst (@perform (fixtures.stub fixtures.issue_not_found) fixtures.json_types
         (labels_delete "a" "b" "bug") [])
  = Raise (Guts (NotFoundError (JStr "issue not found")
                   (JObj [("message", JStr "issue not found")]))).
Proof.
  destruct (@errors_propagate_unchanged
              (fixtures.stub fixtures.issue_not_found) fixtures.json_types
              [] fixtures.issue_not_found (fun _ => eq_refl))
    as [e [_ [_ [_ Hall]]]].
  - simpl. lia.
  - pose proof (Hall (labels_delete "a" "b" "bug")) as Hdelete.
    pose proof (Hall (issues_get "a" "b" 99)) as Hget.
    cbn [rejected] in Hdelete, Hget.
    rewrite Hdelete, <- Hget. reflexivity.
Defined.

Lemma no_content_answer_witness :
  fst (@perform (fixtures.stub (fixtures.reply 204 EmptyString None))
         fixtures.json_types (repos_update "alice" "demo" [("private", JBool true)]) [])
  = Raise TypeError.
Proof.
  apply (@no_content_answer
           (fixtures.stub (fixtures.reply 204 EmptyString None)) fixtures.json_types
           [] (fixtures.reply 204 EmptyString None) (fun _ => eq_refl)
           (repos_update "alice" "demo" [("private", JBool true)])).
  reflexivity.
Defined.

Lemma returns_nothing_on_success_witness :
  fst (@perform (fixtures.stub (fixtures.reply 200 EmptyString None))
         fixtures.json_types (repos_delete "alice" "demo") [])
  = Raise JSONDecodeError.
Proof.
  apply (@returns_nothing_on_success
           (fixtures.stub (fixtures.reply 200 EmptyString None)) fixtures.json_types
           [] (fixtures.reply 200 EmptyString None) (fun _ => eq_refl)
           (repos_delete "alice" "demo")); reflexivity.
Defined.

(** ** Shapes of a list answer *)

Lemma each_item_without_items (m : model) (d : list (string * JSON)) s :
  lookup "items" d = None ->
  fst (each_item m (JObj d) s)
  = match d with
    | [] => Return []
    | _ :: _ => Raise TypeError
    end.
Proof.
  intros E. unfold each_item, mbind, lift at 1, py_get. rewrite E.
  destruct d as [|[k v] d]; reflexivity.
Qed.

Lemma comprehension_first_failure {A B} (f : A -> res B) before item after e :
  Forall (fun x => exists y, f x = Return y) before ->
  f item = Raise e ->
  comprehension f (before ++ item :: after) = Raise e.
Proof.
  intros Hbefore Hitem. induction Hbefore as [|x before [y Hx] _ IH]; simpl.
  - rewrite Hitem. reflexivity.
  - rewrite Hx, IH. reflexivity.
Qed.

Section Shapes.

Context {H : httpx.Httpx} {P : Pydantic}.
Variables (sent : list httpx.Request) (response : httpx.Response).

Hypothesis answered : forall req, httpx.request sent req = Some response.
Hypothesis success : httpx.is_success response = true.
Hypothesis has_body : httpx.status_code response <> 204.

(** X9: a paginated list method on a body that is an object without an
    ["items"] key falls back to the object itself and iterates over its
    keys: it returns the empty list on the empty object and raises
    [TypeError] on every other one. *)
Theorem paginated_lists_without_items
    (owner repo : string) (state : option string) (page per_page : option Z)
    (d : list (string * JSON)) :
  httpx.json response = Some (JObj d) ->
  lookup "items" d = None ->
  fst (repos.list page per_page sent)
  = match d with [] => Return [] | _ :: _ => Raise TypeError end /\
  fst (issues.list owner repo state page per_page sent)
  = match d with [] => Return [] | _ :: _ => Raise TypeError end /\
  fst (pulls.list owner repo state page per_page sent)
  = match d with [] => Return [] | _ :: _ => Raise TypeError end.
Proof.
  intros E Hitems. facade.
  rewrite !(_get_then_answered sent response answered success has_body), E.
  repeat split; apply each_item_without_items; exact Hitems.
Qed.

Let fails_with (result : res (list value)) (m : model) (l : list JSON) : Prop :=
  forall e, first_failure m l e -> result = Raise e.

(** X11: a list method raises as soon as one element does not decode: the
    error is the one of the first such element, and the records decoded
    before it are not returned.  This holds for the methods that iterate
    over a bare array and for the paginated ones on an envelope. *)
Theorem list_fails_at_first_bad_element
    (owner repo org : string) (number : Z) (state : option string)
    (limit page per_page : option Z) (l : list JSON) :
  (httpx.json response = Some (JArr l) ->
   fails_with (fst (releases.list owner repo sent)) Release l /\
   fails_with (fst (labels.list owner repo sent)) Label l /\
   fails_with (fst (webhooks.list owner repo sent)) Webhook l /\
   fails_with (fst (orgs.list sent)) Organization l /\
   fails_with (fst (orgs.list_teams org sent)) Team l /\
   fails_with (fst (consensus.list_blocks limit sent)) Block l /\
   fails_with (fst (consensus.list_validators sent)) Validator l /\
   fails_with (fst (issues.list_comments owner repo number sent)) Comment l /\
   fails_with (fst (pulls.list_reviews owner repo number sent)) Review l) /\
  (forall d,
      httpx.json response = Some (JObj d) ->
      lookup "items" d = Some (JArr l) ->
      fails_with (fst (repos.list page per_page sent)) Repository l /\
      fails_with (fst (issues.list owner repo state page per_page sent)) Issue l /\
      fails_with (fst (pulls.list owner repo state page per_page sent)) PullRequest l).
Proof.
  assert (forall m e, first_failure m l e -> comprehension (construct m) l = Raise e)
    as Hfirst.
  { intros m e (before & item & after & -> & Hbefore & Hitem).
    apply comprehension_first_failure; assumption. }
  unfold fails_with. split.
  - intros E. facade.
    rewrite !(_get_then_answered sent response answered success has_body), E.
    repeat split; intros e He; rewrite each_array; apply Hfirst; exact He.
  - intros d E Hitems. facade.
    rewrite !(_get_then_answered sent response answered success has_body), E.
    repeat split; intros e He; rewrite (each_item_envelope _ d l) by exact Hitems;
      apply Hfirst; exact He.
Qed.

End Shapes.

Lemma paginated_lists_without_items_witness :
  fst (@repos.list (fixtures.stub (fixtures.reply 200 "{}" (Some (JObj []))))
         fixtures.json_types None None [])
  = Return [].
Proof.
  apply (@paginated_lists_without_items
           (fixtures.stub (fixtures.reply 200 "{}" (Some (JObj []))))
           fixtures.json_types [] (fixtures.reply 200 "{}" (Some (JObj [])))
           (fun _ => eq_refl) eq_refl ltac:(discriminate)
           "alice" "demo" None None None []); reflexivity.
Defined.

Lemma list_fails_at_first_bad_element_witness :
  fst (@labels.list
         (fixtures.stub
            (fixtures.reply 200 "[{}, 5]" (Some (JArr [JObj []; JInt 5]))))
         fixtures.json_types "alice" "demo" [])
  = Raise PydanticValidationError.
Proof.
  apply (@list_fails_at_first_bad_element
           (fixtures.stub (fixtures.reply 200 "[{}, 5]" (Some (JArr [JObj []; JInt 5]))))
           fixtures.json_types []
           (fixtures.reply 200 "[{}, 5]" (Some (JArr [JObj []; JInt 5])))
           (fun _ => eq_refl) eq_refl ltac:(discriminate)
           "alice" "demo" "org" 1 None None None None [JObj []; JInt 5]).
  - reflexivity.
  - exists [], (JObj []), [JInt 5]. repeat split. constructor.
Defined.

(** ** Bodies dumped from request models *)

(** X13: a request model dumped for a create call keeps its fields in
    declaration order and leaves out exactly those that are [None]: an
    empty list and [False] are sent like any other value. *)
Theorem dumped_keys :
  (forall r,
      keys (CreateIssueRequest.model_dump true r)
      = (["title"] ++ present "body" (CreateIssueRequest.body r)
         ++ ["labels"; "assignees"])%list /\
      lookup "labels" (CreateIssueRequest.model_dump true r)
      = Some (JArr (map JStr (CreateIssueRequest.labels r)))) /\
  (forall r,
      keys (CreatePullRequestRequest.model_dump true r)
      = (["title"] ++ present "body" (CreatePullRequestRequest.body r)
         ++ ["source_branch"; "target_branch"; "draft"])%list /\
      lookup "draft" (CreatePullRequestRequest.model_dump true r)
      = Some (JBool (CreatePullRequestRequest.draft r))) /\
  (forall r,
      keys (CreateReviewRequest.model_dump true r)
      = (present "body" (CreateReviewRequest.body r) ++ ["state"]
         ++ present "commit_id" (CreateReviewRequest.commit_id r))%list) /\
  (forall r,
      keys (CreateReleaseRequest.model_dump true r)
      = (["tag_name"] ++ present "name" (CreateReleaseRequest.name r)
         ++ present "body" (CreateReleaseRequest.body r)
         ++ ["draft"; "prerelease"]
         ++ present "target_commitish" (CreateReleaseRequest.target_commitish r))%list /\
      lookup "prerelease" (CreateReleaseRequest.model_dump true r)
      = Some (JBool (CreateReleaseRequest.prerelease r))) /\
  (forall r,
      keys (CreateWebhookRequest.model_dump true r)
      = (["url"; "events"; "active"]
         ++ present "secret" (CreateWebhookRequest.secret r))%list /\
      lookup "active" (CreateWebhookRequest.model_dump true r)
      = Some (JBool (CreateWebhookRequest.active r))).
Proof.
  repeat split; destruct r; simpl;
    repeat match goal with
      | x : option _ |- _ => destruct x
      end;
    reflexivity.
Qed.

(** ** Paths *)

Lemma append_assoc (a b c : string) : (a ++ b) ++ c = a ++ b ++ c.
Proof.
  induction a as [|x a IH]; simpl; [reflexivity | rewrite IH; reflexivity].
Qed.

Lemma append_cancel (a b c : string) : a ++ b = a ++ c -> b = c.
Proof.
  induction a as [|x a IH]; simpl; intros E; [exact E|].
  injection E as E. exact (IH E).
Qed.

(** Reading [str n] as a decimal numeral gives [n] back. *)
Lemma str_decimal (n : Z) :
  option_map Z.of_int (NilZero.int_of_string (str n)) = Some n.
Proof.
  unfold str. rewrite NilZero.isi.
  - simpl. rewrite DecimalZ.of_to. reflexivity.
  - destruct n; simpl; intros E; try discriminate; injection E as E;
      exact (Unsigned.to_uint_nonnil _ E).
  - destruct n; simpl; intros E; try discriminate; injection E as E;
      exact (Unsigned.to_uint_nonnil _ E).
Qed.

Lemma str_injective (n n' : Z) : str n = str n' -> n = n'.
Proof.
  intros E. pose proof (str_decimal n) as Hn. rewrite E, str_decimal in Hn.
  congruence.
Qed.

Section Paths.

Context {H : httpx.Httpx} {P : Pydantic}.

(** X14: path segments are pasted into the path as they are, so a slash in
    an argument moves the boundary between segments: a repository [c] of
    owner [a/b] is fetched, updated and deleted by the very same call as a
    repository [b/c] of owner [a], and the release with id ["latest"] is
    fetched by the same call as the latest release. *)
Theorem path_segments_not_escaped (a b c : string) (kwargs : list (string * JSON)) :
  repos.get (a ++ "/" ++ b) c = repos.get a (b ++ "/" ++ c) /\
  repos.update (a ++ "/" ++ b) c kwargs = repos.update a (b ++ "/" ++ c) kwargs /\
  repos.delete (a ++ "/" ++ b) c = repos.delete a (b ++ "/" ++ c) /\
  releases.get a b "latest" = releases.get_latest a b.
Proof.
  assert ("/api/repos/" ++ (a ++ "/" ++ b) ++ "/" ++ c
          = "/api/repos/" ++ a ++ "/" ++ b ++ "/" ++ c) as E.
  { rewrite !append_assoc. reflexivity. }
  unfold repos.get, repos.update, repos.delete, releases.get, releases.get_latest.
  rewrite E. repeat split.
Qed.

(** X15: [issues.get], [pulls.get] and [consensus.get_block] write the
    number into the last segment of the path as a decimal numeral, which
    reads back as the number; so for the same owner and repository calls
    with different numbers send different requests. *)
Theorem numbers_give_distinct_paths (owner repo : string) (n n' : Z)
    (sent : list httpx.Request) :
  (snd (issues.get owner repo n sent)
   = (sent ++ [GET ("/api/repos/" ++ owner ++ "/" ++ repo ++ "/issues/" ++ str n) None])%list /\
   snd (pulls.get owner repo n sent)
   = (sent ++ [GET ("/api/repos/" ++ owner ++ "/" ++ repo ++ "/pulls/" ++ str n) None])%list /\
   snd (consensus.get_block n sent)
   = (sent ++ [GET ("/api/consensus/blocks/" ++ str n) None])%list /\
   option_map Z.of_int (NilZero.int_of_string (str n)) = Some n) /\
  (n <> n' ->
   snd (issues.get owner repo n sent) <> snd (issues.get owner repo n' sent) /\
   snd (pulls.get owner repo n sent) <> snd (pulls.get owner repo n' sent) /\
   snd (consensus.get_block n sent) <> snd (consensus.get_block n' sent)).
Proof.
  assert (forall m,
             snd (issues.get owner repo m sent)
             = (sent ++ [GET ("/api/repos/" ++ owner ++ "/" ++ repo ++ "/issues/"
                              ++ str m) None])%list) as Hissue.
  { intros m. unfold issues.get. apply _get_then. auto with facade. }
  assert (forall m,
             snd (pulls.get owner repo m sent)
             = (sent ++ [GET ("/api/repos/" ++ owner ++ "/" ++ repo ++ "/pulls/"
                              ++ str m) None])%list) as Hpull.
  { intros m. unfold pulls.get. apply _get_then. auto with facade. }
  assert (forall m,
             snd (consensus.get_block m sent)
             = (sent ++ [GET ("/api/consensus/blocks/" ++ str m) None])%list) as Hblock.
  { intros m. unfold consensus.get_block. apply _get_then. auto with facade. }
  split.
  - repeat match goal with |- _ /\ _ => split end;
      [apply Hissue | apply Hpull | apply Hblock | apply str_decimal].
  - intros Hne. rewrite !Hissue, !Hpull, !Hblock.
    repeat match goal with |- _ /\ _ => split end;
      intros E; apply app_inv_head in E; injection E as E; apply Hne;
      apply str_injective;
      repeat match type of E with
        | String ?x _ = String ?x _ => injection E as E
        | ?a ++ _ = ?a ++ _ => apply append_cancel in E
        end;
      exact E.
Qed.

End Paths.

Lemma numbers_give_distinct_paths_witness :
  snd (@issues.get (fixtures.stub fixtures.closed_issue) fixtures.json_types
         "alice" "demo" 7 [])
  <> snd (@issues.get (fixtures.stub fixtures.closed_issue) fixtures.json_types
            "alice" "demo" 70 []).
Proof.
  apply (@numbers_give_distinct_paths
           (fixtures.stub fixtures.closed_issue) fixtures.json_types
           "alice" "demo" 7 70 []).
  lia.
Defined.

(** ** Decoding records *)

Lemma validate_fields_missing (fs : list field) (kwargs : list (string * JSON)) f :
  In f fs -> fdefault f = None -> lookup (fname f) kwargs = None ->
  validate_fields fs kwargs = None.
Proof.
  intros Hin Hdef Hmiss. induction fs as [|g fs IH]; simpl; [contradiction|].
  destruct Hin as [-> | Hin].
  - unfold validate_field. rewrite Hmiss, Hdef. reflexivity.
  - rewrite (IH Hin). destruct (validate_field kwargs g); reflexivity.
Qed.

Lemma validate_fields_agree (fs : list field) (kwargs kwargs' : list (string * JSON)) :
  (forall f, In f fs -> lookup (fname f) kwargs = lookup (fname f) kwargs') ->
  validate_fields fs kwargs = validate_fields fs kwargs'.
Proof.
  induction fs as [|g fs IH]; simpl; intros Hagree; [reflexivity|].
  unfold validate_field. rewrite (Hagree g) by (left; reflexivity).
  rewrite IH by (intros f Hin; apply Hagree; right; exact Hin).
  reflexivity.
Qed.

Section Records.

Context {P : Pydantic}.

(** X16: the fields an entity requires, and what their absence does: a body
    without one of them does not decode, whatever else it holds; pydantic's
    validation error is raised and no record is built. *)
Theorem missing_required_field :
  (forall m name kwargs,
      In name (required_names m) ->
      lookup name kwargs = None ->
      construct m (JObj kwargs) = Raise PydanticValidationError) /\
  required_names Repository
  = ["key"; "name"; "owner"; "clone_url"; "html_url"; "created_at"; "updated_at"] /\
  required_names Issue
  = ["id"; "number"; "title"; "state"; "author"; "created_at"; "updated_at"] /\
  required_names PullRequest
  = ["id"; "number"; "title"; "state"; "author"; "source_branch"; "target_branch";
     "source_commit"; "target_commit"; "created_at"; "updated_at"] /\
  required_names Comment = ["id"; "body"; "author"; "created_at"; "updated_at"] /\
  required_names Review
  = ["id"; "pr_number"; "author"; "state"; "commit_id"; "created_at"] /\
  required_names ReleaseAsset
  = ["id"; "name"; "content_type"; "size"; "browser_download_url"; "created_at";
     "uploader"] /\
  required_names Release
  = ["id"; "tag_name"; "name"; "author"; "target_commitish"; "created_at"] /\
  required_names Label = ["name"; "color"] /\
  required_names User = ["id"; "username"; "public_key"; "created_at"] /\
  required_names Organization = ["id"; "slug"; "created_at"] /\
  required_names Team = ["id"; "slug"; "name"; "created_at"] /\
  required_names Webhook = ["id"; "url"; "events"; "created_at"; "updated_at"] /\
  required_names ConsensusStatus
  = ["height"; "round"; "phase"; "synced"; "peers_count"; "validators_count";
     "mempool_size"] /\
  required_names Block
  = ["height"; "hash"; "parent_hash"; "timestamp"; "proposer"; "transactions_count";
     "size"] /\
  required_names Validator = ["public_key"; "address"; "active"; "voting_power"].
Proof.
  split; [|repeat split].
  intros m name kwargs Hin Hmiss. unfold required_names in Hin.
  apply in_map_iff in Hin. destruct Hin as [f [<- Hin]].
  apply filter_In in Hin. destruct Hin as [Hin Hdef].
  unfold construct, validate.
  rewrite (validate_fields_missing _ kwargs f Hin); [reflexivity | | exact Hmiss].
  destruct (fdefault f); [discriminate | reflexivity].
Qed.

(** X17: decoding reads the declared fields and nothing else: two bodies
    that give the same value to every declared field decode alike.  So a
    key that names no field is ignored, and the order of the keys does not
    matter. *)
Theorem decoding_reads_declared_fields (m : model) (kwargs kwargs' : list (string * JSON)) :
  ((forall name, In name (field_names m) -> lookup name kwargs = lookup name kwargs') ->
   construct m (JObj kwargs) = construct m (JObj kwargs')) /\
  (forall k v,
      ~ In k (field_names m) ->
      construct m (JObj ((k, v) :: kwargs)) = construct m (JObj kwargs)) /\
  (forall k v k' v',
      k <> k' ->
      construct m (JObj ((k, v) :: (k', v') :: kwargs))
      = construct m (JObj ((k', v') :: (k, v) :: kwargs))).
Proof.
  assert (forall kw kw',
             (forall name, In name (field_names m) -> lookup name kw = lookup name kw') ->
             construct m (JObj kw) = construct m (JObj kw')) as Hagree.
  { intros kw kw' Hsame. unfold construct, validate.
    rewrite (validate_fields_agree _ kw kw'); [reflexivity|].
    intros f Hin. apply Hsame. unfold field_names. apply in_map. exact Hin. }
  split; [apply Hagree | split].
  - intros k v Hk. apply Hagree. intros name Hin. simpl.
    destruct (String.eqb_spec name k) as [->|_]; [contradiction | reflexivity].
  - intros k v k' v' Hne. apply Hagree. intros name _. simpl.
    destruct (String.eqb_spec name k) as [->|_]; [|reflexivity].
    destruct (String.eqb_spec k k'); [contradiction | reflexivity].
Qed.

End Records.

Lemma missing_required_field_witness :
  construct (@Repository fixtures.json_types)
    (JObj [("name", JStr "demo"); ("owner", JStr "alice")])
  = Raise PydanticValidationError.
Proof.
  apply (@missing_required_field fixtures.json_types) with (name := "key").
  - simpl. tauto.
  - reflexivity.
Defined.

Lemma decoding_reads_declared_fields_witness :
  construct (@Label fixtures.json_types)
    (JObj [("id", JInt 3); ("name", JStr "bug"); ("color", JStr "d73a4a")])
  = construct (@Label fixtures.json_types)
      (JObj [("name", JStr "bug"); ("color", JStr "d73a4a")]).
Proof.
  destruct (decoding_reads_declared_fields (@Label fixtures.json_types)
              [("name", JStr "bug"); ("color", JStr "d73a4a")] [])
    as [_ [Hextra _]].
  apply Hextra. simpl. intuition discriminate.
Defined.

(** ** Enumerations and optional fields *)

Lemma validate_fields_null (fs : list field) (kwargs : list (string * JSON)) name :
  (forall f, In f fs -> fname f = name -> fvalidate f JNull = fdefault f) ->
  lookup name kwargs = None ->
  validate_fields fs ((name, JNull) :: kwargs) = validate_fields fs kwargs.
Proof.
  intros Hnull Hmiss. induction fs as [|g fs IH]; simpl; [reflexivity|].
  rewrite IH by (intros f Hin; apply Hnull; right; exact Hin).
  replace (validate_field ((name, JNull) :: kwargs) g) with (validate_field kwargs g);
    [reflexivity|].
  unfold validate_field. simpl.
  destruct (String.eqb_spec (fname g) name) as [E|_]; [|reflexivity].
  rewrite E, Hmiss. symmetry. apply Hnull; [left; reflexivity | exact E].
Qed.

Lemma find_field (fs : list field) (f : field) :
  NoDup (map fname fs) -> In f fs ->
  find (fun g => String.eqb (fname f) (fname g)) fs = Some f.
Proof.
  induction fs as [|g fs IH]; simpl; intros Hnd Hin; [contradiction|].
  inversion Hnd as [|? ? Hnotin Hnd']; subst.
  destruct Hin as [-> | Hin].
  - rewrite String.eqb_refl. reflexivity.
  - destruct (String.eqb_spec (fname f) (fname g)) as [E|_].
    + exfalso. apply Hnotin. rewrite <- E. apply in_map. exact Hin.
    + apply IH; assumption.
Qed.

(** A string that is the value of no member fails every comparison with a
    member value. *)
Ltac not_a_member :=
  let s := fresh "s" in
  let Hs := fresh "Hs" in
  intros s Hs;
  match goal with
  | _ : forall x, _ <> s |- _ =>
      unfold validate_attr; simpl;
      repeat match goal with
        | |- context [String.eqb s ?v] =>
            destruct (String.eqb_spec s v) as [E|_];
            [ exfalso; subst s;
              first [ exact (Hs ltac:(constructor 1) eq_refl)
                    | exact (Hs ltac:(constructor 2) eq_refl)
                    | exact (Hs ltac:(constructor 3) eq_refl)
                    | exact (Hs ltac:(constructor 4) eq_refl)
                    | exact (Hs ltac:(constructor 5) eq_refl) ] |]
        end;
      reflexivity
  end.

Section Enumerations.

Context {P : Pydantic}.

Lemma optional_fields_accept_null :
  Forall (fun m =>
            Forall (fun f => fdefault f = Some VNone -> fvalidate f JNull = Some VNone)
              (model_fields m)) entities.
Proof.
  unfold entities.
  repeat (constructor;
          [simpl; repeat (constructor; [simpl; intros E; try discriminate E; reflexivity|]);
           constructor|]).
  constructor.
Qed.

Lemma member_values_decode (events : list WebhookEvent.t) :
  all_some (v_enum (map WebhookEvent.value WebhookEvent.members))
    (map (fun e => JStr (WebhookEvent.value e)) events)
  = Some (map (fun e => VEnum (WebhookEvent.value e)) events).
Proof.
  induction events as [|e events IH]; [reflexivity|].
  cbn [map all_some]. rewrite IH. destruct e; reflexivity.
Qed.

(** X18: the enumerated fields accept exactly the values of the members of
    their enumeration: every member value decodes, and every other string
    is rejected, as is every value that is not a string.  The events of a
    webhook request, as dumped for the create call, decode as the
    [events] of a [Webhook]. *)
Theorem enumerated_fields :
  (forall x, validate_attr Issue "state" (JStr (IssueState.value x))
             = Some (VEnum (IssueState.value x))) /\
  (forall s, (forall x, IssueState.value x <> s) ->
             validate_attr Issue "state" (JStr s) = None) /\
  (forall x, validate_attr PullRequest "state" (JStr (PullRequestState.value x))
             = Some (VEnum (PullRequestState.value x))) /\
  (forall s, (forall x, PullRequestState.value x <> s) ->
             validate_attr PullRequest "state" (JStr s) = None) /\
  (forall x, validate_attr Review "state" (JStr (ReviewState.value x))
             = Some (VEnum (ReviewState.value x))) /\
  (forall s, (forall x, ReviewState.value x <> s) ->
             validate_attr Review "state" (JStr s) = None) /\
  (forall j, (forall s, j <> JStr s) ->
             validate_attr Issue "state" j = None /\
             validate_attr PullRequest "state" j = None /\
             validate_attr Review "state" j = None) /\
  (forall r,
      exists j,
        lookup "events" (CreateWebhookRequest.model_dump true r) = Some j /\
        validate_attr Webhook "events" j
        = Some (VList (map (fun e => VEnum (WebhookEvent.value e))
                         (CreateWebhookRequest.events r)))).
Proof.
  repeat match goal with |- _ /\ _ => split end.
  - intros x. destruct x; reflexivity.
  - not_a_member.
  - intros x. destruct x; reflexivity.
  - not_a_member.
  - intros x. destruct x; reflexivity.
  - not_a_member.
  - intros j Hj. destruct j; try (repeat split; fail).
    exfalso. eapply Hj. reflexivity.
  - intros r. destruct r as [url events active secret].
    exists (JArr (map (fun e => JStr (WebhookEvent.value e)) events)). split.
    + destruct secret; reflexivity.
    + change (validate_attr Webhook "events"
                (JArr (map (fun e => JStr (WebhookEvent.value e)) events)))
        with (option_map VList
                (all_some (v_enum (map WebhookEvent.value WebhookEvent.members))
                   (map (fun e => JStr (WebhookEvent.value e)) events))).
      rewrite member_values_decode. reflexivity.
Qed.

(** X19: for a field declared [Optional] with default [None], an explicit
    null in the body decodes like the absence of the key: adding
    ["field": null] to a body that does not have the key changes nothing,
    for every such field of every entity. *)
Theorem null_is_absent (m : model) (name : string) (kwargs : list (string * JSON)) :
  In m entities ->
  default_of m name = Some VNone ->
  lookup name kwargs = None ->
  construct m (JObj ((name, JNull) :: kwargs)) = construct m (JObj kwargs).
Proof.
  intros Hm Hdef Hmiss.
  pose proof entities_distinct_fields as Hnd.
  pose proof optional_fields_accept_null as Hnull.
  rewrite Forall_forall in Hnd, Hnull.
  specialize (Hnd m Hm). specialize (Hnull m Hm). rewrite Forall_forall in Hnull.
  unfold construct, validate.
  rewrite validate_fields_null; [reflexivity | | exact Hmiss].
  intros f Hin Hname.
  assert (fdefault f = Some VNone) as Hf.
  { unfold default_of in Hdef. rewrite <- Hname in Hdef.
    rewrite (find_field _ f Hnd Hin) in Hdef. exact Hdef. }
  rewrite Hf. apply Hnull; assumption.
Qed.

End Enumerations.

Lemma enumerated_fields_witness :
  validate_attr (@Issue fixtures.json_types) "state" (JStr "merged") = None /\
  validate_attr (@PullRequest fixtures.json_types) "state" (JStr "merged")
  = Some (VEnum "merged").
Proof.
  destruct (@enumerated_fields fixtures.json_types) as [_ [Hreject [Haccept _]]].
  split.
  - apply Hreject. intros []; discriminate.
  - apply (Haccept PullRequestState.MERGED).
Defined.

Lemma null_is_absent_witness :
  construct (@Label fixtures.json_types)
    (JObj [("description", JNull); ("name", JStr "bug"); ("color", JStr "d73a4a")])
  = construct (@Label fixtures.json_types)
      (JObj [("name", JStr "bug"); ("color", JStr "d73a4a")]).
Proof.
  apply (@null_is_absent fixtures.json_types).
  - simpl. tauto.
  - reflexivity.
  - reflexivity.
Defined.

(** ** Bodies that are arrays, bodies that are not JSON *)

Section Bodies.

Context {H : httpx.Httpx} {P : Pydantic}.
Variables (sent : list httpx.Request) (response : httpx.Response).

Hypothesis answered : forall req, httpx.request sent req = Some response.
Hypothesis success : httpx.is_success response = true.
Hypothesis has_body : httpx.status_code response <> 204.

Let returns_elementwise (result : res (list value)) (m : model) (l : list JSON) : Prop :=
  forall records,
    result = Return records
    <-> Forall2 (fun item record => construct m item = Return record) l records.

(** X10: a list method that iterates over the payload returns, on a bare
    array, the records of its elements, one per element and in the order of
    the array, and it returns a list only when every element decodes. *)
Theorem direct_lists_return_elementwise
    (owner repo org : string) (number : Z) (limit : option Z) (l : list JSON) :
  httpx.json response = Some (JArr l) ->
  returns_elementwise (fst (releases.list owner repo sent)) Release l /\
  returns_elementwise (fst (labels.list owner repo sent)) Label l /\
  returns_elementwise (fst (webhooks.list owner repo sent)) Webhook l /\
  returns_elementwise (fst (orgs.list sent)) Organization l /\
  returns_elementwise (fst (orgs.list_teams org sent)) Team l /\
  returns_elementwise (fst (consensus.list_blocks limit sent)) Block l /\
  returns_elementwise (fst (consensus.list_validators sent)) Validator l /\
  returns_elementwise (fst (issues.list_comments owner repo number sent)) Comment l /\
  returns_elementwise (fst (pulls.list_reviews owner repo number sent)) Review l.
Proof.
  intros E. unfold returns_elementwise.
  destruct (direct_lists_decode_bare_array sent response answered success has_body
              owner repo org number limit l E)
    as (-> & -> & -> & -> & -> & -> & -> & -> & ->).
  repeat match goal with |- _ /\ _ => split end;
    intros records; apply comprehension_Forall2.
Qed.

(** X20: on a 2xx answer other than 204 whose body is not JSON, an empty
    body for one, every method of every facade raises the decoding error
    of the HTTP library, the deletions included.  An update called with a
    keyword that names a parameter of the method raises [TypeError]
    instead, before anything is sent. *)
Theorem body_not_json (c : call) :
  httpx.json response = None ->
  fst (perform c sent) = if rejected c then Raise TypeError else Raise JSONDecodeError.
Proof.
  intros E.
  assert (forall method path params json,
             fst (_request method path params json sent) = Raise JSONDecodeError)
    as Hreq.
  { intros. rewrite (_request_success method path params json sent response
                       (answered _) success has_body).
    unfold response_json. rewrite E. reflexivity. }
  destruct c; cbn [rejected]; unfold perform;
    try match goal with
      | |- context [colliding ?p ?k] => destruct (colliding p k) eqn:Hk
      end;
    apply void_raise; facade; unfold keywords; rewrite ?Hk; try reflexivity;
    unfold _delete, _get, _post, _patch;
    repeat apply mbind_raised; apply Hreq.
Qed.

End Bodies.

Lemma direct_lists_return_elementwise_witness :
  fst (@labels.list (fixtures.stub fixtures.two_labels) fixtures.json_types
         "alice" "demo" [])
  = Return [VModel "Label" [("name", VStr "bug"); ("color", VStr "d73a4a");
                            ("description", VNone)];
            VModel "Label" [("name", VStr "docs"); ("color", VStr "0075ca");
                            ("description", VNone)]].
Proof.
  destruct (@direct_lists_return_elementwise
              (fixtures.stub fixtures.two_labels) fixtures.json_types
              [] fixtures.two_labels (fun _ => eq_refl) eq_refl ltac:(discriminate)
              "alice" "demo" "org" 1 None
              [JObj [("name", JStr "bug"); ("color", JStr "d73a4a")];
               JObj [("name", JStr "docs"); ("color", JStr "0075ca")]] eq_refl)
    as [_ [Hlabels _]].
  apply Hlabels.
  constructor; [reflexivity|]. constructor; [reflexivity|]. constructor.
Defined.

Lemma body_not_json_witness :
  fst (@perform (fixtures.stub (fixtures.reply 200 EmptyString None))
         fixtures.json_types (users_get "alice") [])
  = Raise JSONDecodeError.
Proof.
  apply (@body_not_json
           (fixtures.stub (fixtures.reply 200 EmptyString None)) fixtures.json_types
           [] (fixtures.reply 200 EmptyString None) (fun _ => eq_refl) eq_refl
           ltac:(discriminate)).
  reflexivity.
Defined.

(** An update called with a keyword that names a parameter of the method:
    [repos.update("alice", "demo", owner="bob")] raises [TypeError] and
    sends nothing. *)
Example update_with_colliding_keyword :
  @repos.update (fixtures.stub fixtures.one_repository) fixtures.json_types
    "alice" "demo" [("owner", JStr "bob")] []
  = (Raise TypeError, []).
Proof. reflexivity. Qed.
